(** * gcp_pal.artifactregistry: path parsing and level dispatch

    A shallow embedding of [ArtifactRegistry.__init__], [_get_level],
    [_get_path] and [ls] from [gcp_pal/artifactregistry.py], together with the
    Python string primitives they are built from, and the properties of the
    locator they compute. *)

From Stdlib Require Import String Ascii List Bool Arith ZArith Lia.
From Stdlib Require Import Sorted Permutation.
Import ListNotations.
Open Scope list_scope.
Open Scope string_scope.

(** ** Python built-ins used by the constructor

    A [str] is a [string], character by character; the separators of the
    code, [/], [:], [sha256:] and [%2F], are all ASCII. *)

Module Py.

(** [s.startswith(p)] *)
Fixpoint startswith (s p : string) {struct p} : bool :=
  match p with
  | EmptyString => true
  | String b p' =>
      match s with
      | EmptyString => false
      | String a s' => Ascii.eqb a b && startswith s' p'
      end
  end.

(** [pat in s] *)
Fixpoint contains (pat s : string) : bool :=
  startswith s pat
  || match s with
     | EmptyString => false
     | String _ s' => contains pat s'
     end.

(** Puts a character in front of the first piece of a split. *)
Definition cons_head (c : ascii) (l : list string) : list string :=
  match l with
  | [] => [String c ""]
  | h :: t => String c h :: t
  end.

(** [s.split(sep)] for a non-empty [sep] (every call site passes a literal):
    pieces are cut at the leftmost occurrences of [sep], left to right, and
    occurrences do not overlap.  [skip] counts the characters of a matched
    separator that are still to be passed over. *)
Fixpoint split_from (sep : string) (skip : nat) (s : string) : list string :=
  match s with
  | EmptyString => [""]
  | String c s' =>
      match skip with
      | S k => split_from sep k s'
      | O =>
          if startswith s sep
          then "" :: split_from sep (String.length sep - 1) s'
          else cons_head c (split_from sep 0 s')
      end
  end.

Definition split (s sep : string) : list string := split_from sep 0 s.

(** [s.replace(old, new)] for a non-empty [old]. *)
Fixpoint replace_from (old new : string) (skip : nat) (s : string) : string :=
  match s with
  | EmptyString => ""
  | String c s' =>
      match skip with
      | S k => replace_from old new k s'
      | O =>
          if startswith s old
          then new ++ replace_from old new (String.length old - 1) s'
          else String c (replace_from old new 0 s')
      end
  end.

Definition replace (s old new : string) : string := replace_from old new 0 s.

(** [sep.join(l)] *)
Definition join (sep : string) (l : list string) : string := String.concat sep l.

(** [l[1::2]]: the elements at odd positions. *)
Fixpoint slice_1_2 {A : Type} (l : list A) : list A :=
  match l with
  | _ :: x :: t => x :: slice_1_2 t
  | _ => []
  end.

(** [l[n:]] and [l[:-1]] *)
Definition slice_from {A : Type} (n : nat) (l : list A) : list A := skipn n l.
Definition slice_but_last {A : Type} (l : list A) : list A := removelast l.

(** Truthiness of a value that is [None] or a [str]. *)
Definition truthy (v : option string) : bool :=
  match v with
  | Some (String _ _) => true
  | _ => false
  end.

(** [a or b] *)
Definition or_ (a b : option string) : option string :=
  if truthy a then a else b.

(** How an f-string renders a value that is [None] or a [str]. *)
Definition fmt (v : option string) : string :=
  match v with
  | Some s => s
  | None => "None"
  end.

End Py.

(** ** Exceptions and the monad of the constructor body

    The body of [__init__] assigns attributes of [self] one after the other
    and wraps most steps in [try ... except]: a computation takes the object,
    and gives back the object as it is by then with either a value or the
    exception that is propagating. *)

Inductive exn : Type :=
| IndexError
| AttributeError
| ValueError (msg : string).

Definition is_IndexError (e : exn) : bool :=
  match e with IndexError => true | _ => false end.

Definition is_IndexError_or_AttributeError (e : exn) : bool :=
  match e with IndexError | AttributeError => true | _ => false end.

(** The attributes of an [ArtifactRegistry] object that the parsing sets.
    An attribute holds [None] or a [str]. *)
Record Self : Type := mkSelf {
  project : option string;
  location : option string;
  repository : option string;
  image : option string;
  tag : option string;
  version : option string;
  level : option string;
  path : string
}.

(** The object before [__init__] has assigned anything. *)
Definition fresh : Self := mkSelf None None None None None None None "".

Definition M (A : Type) : Type := Self -> (exn + A) * Self.

Definition ret {A} (a : A) : M A := fun self => (inr a, self).

Definition raise {A} (e : exn) : M A := fun self => (inl e, self).

Definition bind {A B} (m : M A) (f : A -> M B) : M B :=
  fun self =>
    match m self with
    | (inr a, self') => f a self'
    | (inl e, self') => (inl e, self')
    end.

(** [try: body except <handles>: handler] *)
Definition try_except {A} (body : M A) (handles : exn -> bool) (handler : M A) : M A :=
  fun self =>
    match body self with
    | (inl e, self') => if handles e then handler self' else (inl e, self')
    | r => r
    end.

Definition pass : M unit := ret tt.

Definition get {A} (f : Self -> A) : M A := fun self => (inr (f self), self).

Definition set_project (v : option string) : M unit :=
  fun s => (inr tt, mkSelf v (location s) (repository s) (image s) (tag s) (version s) (level s) (path s)).
Definition set_location (v : option string) : M unit :=
  fun s => (inr tt, mkSelf (project s) v (repository s) (image s) (tag s) (version s) (level s) (path s)).
Definition set_repository (v : option string) : M unit :=
  fun s => (inr tt, mkSelf (project s) (location s) v (image s) (tag s) (version s) (level s) (path s)).
Definition set_image (v : option string) : M unit :=
  fun s => (inr tt, mkSelf (project s) (location s) (repository s) v (tag s) (version s) (level s) (path s)).
Definition set_tag (v : option string) : M unit :=
  fun s => (inr tt, mkSelf (project s) (location s) (repository s) (image s) v (version s) (level s) (path s)).
Definition set_version (v : option string) : M unit :=
  fun s => (inr tt, mkSelf (project s) (location s) (repository s) (image s) (tag s) v (level s) (path s)).
Definition set_level (v : option string) : M unit :=
  fun s => (inr tt, mkSelf (project s) (location s) (repository s) (image s) (tag s) (version s) v (path s)).
Definition set_path (v : string) : M unit :=
  fun s => (inr tt, mkSelf (project s) (location s) (repository s) (image s) (tag s) (version s) (level s) v).

(** [l[i]]: raises [IndexError] out of range. *)
Definition item {A} (l : list A) (i : nat) : M A :=
  match nth_error l i with
  | Some x => ret x
  | None => raise IndexError
  end.

(** [v.split(sep)] on a value that may be [None]: [None] has no attribute
    [split]. *)
Definition split_method (v : option string) (sep : string) : M (list string) :=
  match v with
  | Some s => ret (Py.split s sep)
  | None => raise AttributeError
  end.

Declare Scope py_scope.
Delimit Scope py_scope with py.
Notation "x <- m ;; k" := (bind m (fun x => k))
  (at level 61, m at next level, right associativity) : py_scope.
Notation "m ;; k" := (bind m (fun _ => k))
  (at level 61, right associativity) : py_scope.
Notation "'try' b 'except' h => k" := (try_except b h k)
  (at level 60, b at next level, h at level 0, k at next level) : py_scope.
Open Scope py_scope.
Notation "' pat <- m ;; k" := (bind m (fun pat => k))
  (at level 61, pat pattern, m at next level, right associativity) : py_scope.

(** ** The constructor *)

(** The keyword arguments of [__init__] other than [path]. *)
Record Kwargs : Type := mkKwargs {
  kw_project : option string;
  kw_location : option string;
  kw_repository : option string;
  kw_image : option string;
  kw_version : option string;
  kw_tag : option string
}.

(** The defaults of the signature: [location="europe-west2"], the rest [None]. *)
Definition defaults : Kwargs :=
  mkKwargs None (Some "europe-west2") None None None None.

(** What the constructor reads from outside: [os.environ.get("PROJECT")] and
    the project of [get_auth_default()] (defined in [gcp_pal.utils]; taken
    here as the value it returns). *)
Record Env : Type := mkEnv {
  environ_PROJECT : option string;
  auth_default_project : option string
}.

(** [_get_level] *)
Definition _get_level (self : Self) : option string :=
  if Py.truthy (tag self) || Py.truthy (version self) then Some "digest"
  else if Py.truthy (image self) then Some "image"
  else if Py.truthy (repository self) then Some "repository"
  else if Py.truthy (location self) then Some "location"
  else if Py.truthy (project self) then Some "project"
  else None.

(** [self.level == name] *)
Definition level_is (self : Self) (name : string) : bool :=
  match level self with
  | Some l => String.eqb l name
  | None => false
  end.

(** [_get_path(shorten)] *)
Definition _get_path (shorten : bool) (self : Self) : string :=
  let P := Py.fmt (project self) in
  let L := Py.fmt (location self) in
  let R := Py.fmt (repository self) in
  let I := Py.fmt (image self) in
  match level self with
  | None => ""
  | Some _ =>
      let path :=
        if level_is self "project" then
          "projects/" ++ P
        else if level_is self "location" then
          "projects/" ++ P ++ "/locations/" ++ L
        else if level_is self "repository" then
          "projects/" ++ P ++ "/locations/" ++ L ++ "/repositories/" ++ R
        else if level_is self "image" then
          "projects/" ++ P ++ "/locations/" ++ L ++ "/repositories/" ++ R
            ++ "/packages/" ++ I
        else if level_is self "digest" && Py.truthy (tag self) then
          "projects/" ++ P ++ "/locations/" ++ L ++ "/repositories/" ++ R
            ++ "/packages/" ++ I ++ "/tags/" ++ Py.fmt (tag self)
        else if level_is self "digest" && Py.truthy (version self) then
          "projects/" ++ P ++ "/locations/" ++ L ++ "/repositories/" ++ R
            ++ "/packages/" ++ I ++ "/versions/sha256:" ++ Py.fmt (version self)
        else "" in
      if shorten then Py.join "/" (Py.slice_1_2 (Py.split path "/")) else path
  end.

(** Lines 34-51: a path that starts with ["projects/"] is a full resource
    name; its key segments are dropped, and project and location are taken
    from it.  The block rebinds the locals [path], [project], [location].
    The path is a [str] here, so [isinstance(path, str)] holds. *)
Definition qualified_block (path : string) (project location : option string)
  : M (string * option string * option string) :=
  if Py.startswith path "projects/" then
    let parts := Py.split path "/" in
    let path := Py.join "/" (Py.slice_1_2 parts) in
    let path := Py.replace path "%2F" "/" in
    project <- (try (x <- item (Py.split path "/") 0 ;; ret (Some x))
                except is_IndexError => (ret project)) ;;
    location <- (try (x <- item (Py.split path "/") 1 ;; ret (Some x))
                 except is_IndexError => (ret None)) ;;
    path <- (try (ret (Py.join "/" (Py.slice_from 2 (Py.split path "/"))))
             except is_IndexError => (ret path)) ;;
    ret (path, project, location)
  else ret (path, project, location).

(** Lines 58-61: [self.repository = path.split("/")[0]] *)
Definition repository_block (path : string) : M unit :=
  try (x <- item (Py.split path "/") 0 ;; set_repository (Some x))
  except is_IndexError => pass.

(** Lines 62-71: the segments after the first; of two or more, the last one
    is left out and the others are joined again.  The list that [self.image]
    holds between the first assignment and the second is the local [img]:
    nothing reads the attribute in between. *)
Definition image_block (path : string) : M unit :=
  try (let img := Py.slice_from 1 (Py.split path "/") in
       if (1 <? List.length img)%nat then
         set_image (Some (Py.join "/" (Py.slice_but_last img)))
       else
         match img with
         | [] => set_image None
         | _ => (x <- item img 0 ;; set_image (Some x))
         end)
  except is_IndexError => pass.

(** Lines 72-75: [self.version = path.split("sha256:")[1]] *)
Definition version_block (path : string) : M unit :=
  try (x <- item (Py.split path "sha256:") 1 ;; set_version (Some x))
  except is_IndexError => pass.

(** Lines 76-80: a [:] in the image separates the tag. *)
Definition tag_block : M unit :=
  try (img <- get image ;;
       parts <- split_method img ":" ;;
       t <- item parts 1 ;;
       set_tag (Some t) ;;
       img <- get image ;;
       parts <- split_method img ":" ;;
       i <- item parts 0 ;;
       set_image (Some i))
  except is_IndexError_or_AttributeError => pass.

(** Lines 52-84: the attributes are seeded from the arguments, overwritten
    from [path], and [level] and [path] are derived from them. *)
Definition assign_block (env : Env) (path : string)
    (project location : option string) (kw : Kwargs) : M unit :=
  set_project
    (Py.or_ (Py.or_ project (environ_PROJECT env)) (auth_default_project env)) ;;
  set_location location ;;
  set_repository (kw_repository kw) ;;
  set_image (kw_image kw) ;;
  set_tag (kw_tag kw) ;;
  set_version (kw_version kw) ;;
  repository_block path ;;
  image_block path ;;
  version_block path ;;
  tag_block ;;
  t <- get tag ;;
  (if Py.truthy t then set_version None else ret tt) ;;
  lv <- get _get_level ;;
  set_level lv ;;
  p <- get (_get_path true) ;;
  set_path p.

(** [__init__], up to the assignment of [self.path] (what follows imports the
    SDK module and builds its client). *)
Definition __init__ (env : Env) (path : string) (kw : Kwargs) : M unit :=
  ' (path, project, location) <-
      qualified_block path (kw_project kw) (kw_location kw) ;;
  assign_block env path project location kw.

(** [ArtifactRegistry(path, **kw)]: the object built, or the exception that
    leaves the constructor. *)
Definition ArtifactRegistry (env : Env) (path : string) (kw : Kwargs) : exn + Self :=
  match __init__ env path kw fresh with
  | (inr _, self) => inr self
  | (inl e, _) => inl e
  end.

(** ** Listing *)

(** The listing methods [ls] hands over to; each sends one request through
    the SDK client. *)
Inductive listing : Type :=
| ls_versions
| ls_images
| ls_repositories.

(** What a call of [ls] did: the listing methods it called, in order, and
    how it ended (a list returned, [None] returned, or an exception). *)
Record Outcome : Type := mkOutcome {
  called : list listing;
  result : exn + option (list string)
}.

Section Listing.

(** How a listing method ends on a given object: the SDK's answer. *)
Variable answer : listing -> Self -> exn + list string.

(** [return self.<method>()] *)
Definition delegate (method : listing) (self : Self) : Outcome :=
  mkOutcome [method]
    match answer method self with
    | inr l => inr (Some l)
    | inl e => inl e
    end.

(** [ls] *)
Definition ls (self : Self) : Outcome :=
  if level_is self "image" then delegate ls_versions self
  else if level_is self "repository" then delegate ls_images self
  else if level_is self "location" then delegate ls_repositories self
  else if level_is self "project" then
    mkOutcome [] (inl (ValueError "Cannot list items at the project level."))
  else mkOutcome [] (inr None).

End Listing.

(** ** Vocabulary of the statements *)

(** The levels, most specific first. *)
Definition levels_by_priority : list string :=
  ["digest"; "image"; "repository"; "location"; "project"].

(** A level applies to an object when the attribute it stands for is set
    (truthy); the digest level stands for the tag or the version. *)
Definition applicable (self : Self) (lv : string) : bool :=
  if lv =? "digest" then Py.truthy (tag self) || Py.truthy (version self)
  else if lv =? "image" then Py.truthy (image self)
  else if lv =? "repository" then Py.truthy (repository self)
  else if lv =? "location" then Py.truthy (location self)
  else if lv =? "project" then Py.truthy (project self)
  else false.

(** The most specific applicable level, in the words of the specification. *)
Definition most_specific_level (self : Self) : option string :=
  List.find (applicable self) levels_by_priority.

(** A path segment: not empty, and without [/] or its escape [%2F]. *)
Definition segment (s : string) : bool :=
  negb (s =? "") && negb (Py.contains "/" s) && negb (Py.contains "%2F" s).

(** A segment that has no [:] either. *)
Definition plain (s : string) : bool :=
  segment s && negb (Py.contains ":" s).

(** A locator whose full resource name can be read back: it has no tag, its
    project, location and repository are plain segments, and so are its image
    and its version where they are set (no version without an image). *)
Definition readable (self : Self) : bool :=
  match project self, location self, repository self, tag self with
  | Some p, Some l, Some r, None =>
      plain p && plain l && plain r
      && match image self, version self with
         | None, None => true
         | Some i, None => plain i
         | Some i, Some v => plain i && plain v
         | None, Some _ => false
         end
  | _, _, _, _ => false
  end.

(** The fully qualified name of a version. *)
Definition qualified_version (P L R I V : string) : string :=
  "projects/" ++ P ++ "/locations/" ++ L ++ "/repositories/" ++ R
    ++ "/packages/" ++ I ++ "/versions/sha256:" ++ V.

Definition env0 : Env := mkEnv None (Some "proj").

(** ** The constructor in closed form

    The same computation without the monad: every [try] becomes a [match] on
    the lookup that may fail.  [init_run] below shows that the constructor
    computes exactly this. *)

Definition qualified (path : string) (project location : option string)
  : string * option string * option string :=
  if Py.startswith path "projects/" then
    let path := Py.replace (Py.join "/" (Py.slice_1_2 (Py.split path "/"))) "%2F" "/" in
    let segs := Py.split path "/" in
    (Py.join "/" (Py.slice_from 2 segs),
     match nth_error segs 0 with Some x => Some x | None => project end,
     nth_error segs 1)
  else (path, project, location).

Definition image_of (path : string) (image : option string) : option string :=
  let img := Py.slice_from 1 (Py.split path "/") in
  if (1 <? List.length img)%nat then Some (Py.join "/" (Py.slice_but_last img))
  else match img with
       | [] => None
       | _ => match nth_error img 0 with Some x => Some x | None => image end
       end.

Definition version_of (path : string) (version : option string) : option string :=
  match nth_error (Py.split path "sha256:") 1 with
  | Some x => Some x
  | None => version
  end.

Definition tag_of (image tag : option string) : option string * option string :=
  match image with
  | Some i =>
      match nth_error (Py.split i ":") 1 with
      | Some t =>
          match nth_error (Py.split i ":") 0 with
          | Some a => (Some a, Some t)
          | None => (image, Some t)
          end
      | None => (image, tag)
      end
  | None => (image, tag)
  end.

Definition derive (self : Self) : Self :=
  let self :=
    mkSelf (project self) (location self) (repository self) (image self)
      (tag self) (version self) (_get_level self) (path self) in
  mkSelf (project self) (location self) (repository self) (image self)
    (tag self) (version self) (level self) (_get_path true self).

Definition assigned (env : Env) (path : string) (project location : option string)
    (kw : Kwargs) : Self :=
  let repo :=
    match nth_error (Py.split path "/") 0 with
    | Some x => Some x
    | None => kw_repository kw
    end in
  let it := tag_of (image_of path (kw_image kw)) (kw_tag kw) in
  let ver := version_of path (kw_version kw) in
  derive
    (mkSelf
       (Py.or_ (Py.or_ project (environ_PROJECT env)) (auth_default_project env))
       location repo (fst it) (snd it)
       (if Py.truthy (snd it) then None else ver) None "").

Definition locate (env : Env) (path : string) (kw : Kwargs) : Self :=
  let '(path, project, location) :=
    qualified path (kw_project kw) (kw_location kw) in
  assigned env path project location kw.

(** ** The methods that talk to the SDK

    A method reads the attributes of the object, sends requests through
    [self.client] and works on the answers.  What the client answers is a
    parameter; a run of a method gives the requests it sent, in order, and
    how it ended. *)

(** [_get_parent]; [__init__] stores its result in [self.parent] once the
    attributes are set, and the methods read it from there. *)
Definition _get_parent (self : Self) : string :=
  match location self with
  | Some _ =>
      "projects/" ++ Py.fmt (project self) ++ "/locations/"
        ++ Py.fmt (location self)
  | None =>
      match project self with
      | Some _ => "projects/" ++ Py.fmt (project self)
      | None => ""
      end
  end.

(** The calls of [self.client] that the methods make, with the resource name
    they pass ([parent=] or [name=]). *)
Inductive request : Type :=
| ListRepositories (parent : string)
| ListFiles (parent : string)
| ListPackages (parent : string)
| ListVersions (parent : string)
| GetRepository (name : string)
| GetPackage (name : string)
| GetVersion (name : string)
| GetTag (name : string).

(** The resource name a request carries. *)
Definition request_name (r : request) : string :=
  match r with
  | ListRepositories n | ListFiles n | ListPackages n | ListVersions n
  | GetRepository n | GetPackage n | GetVersion n | GetTag n => n
  end.

(** How a call ends badly: an exception raised by the code of the method, or
    one that comes out of the SDK. *)
Inductive failure : Type :=
| Raised (e : exn)
| SdkError (msg : string).

(** The answers of the client.  A listing answers the [name]s of the
    resources (with their [create_time] for versions, as a number);
    [get_tag] answers [None] or the [version] of the tag. *)
Record Client (Resource : Type) : Type := mkClient {
  client_list_repositories : string -> failure + list string;
  client_list_files : string -> failure + list string;
  client_list_packages : string -> failure + list string;
  client_list_versions : string -> failure + list (string * Z);
  client_get_repository : string -> failure + Resource;
  client_get_package : string -> failure + Resource;
  client_get_version : string -> failure + Resource;
  client_get_tag : string -> failure + option string
}.

Arguments client_list_repositories {Resource}.
Arguments client_list_files {Resource}.
Arguments client_list_packages {Resource}.
Arguments client_list_versions {Resource}.
Arguments client_get_repository {Resource}.
Arguments client_get_package {Resource}.
Arguments client_get_version {Resource}.
Arguments client_get_tag {Resource}.

(** A run: the requests sent, and the value returned or the failure. *)
Definition Call (A : Type) : Type := (list request * (failure + A))%type.

Definition call_ret {A} (a : A) : Call A := ([], inr a).

Definition call_raise {A} (e : exn) : Call A := ([], inl (Raised e)).

Definition call_bind {A B} (m : Call A) (f : A -> Call B) : Call B :=
  match m with
  | (sent, inr a) => let (sent', r) := f a in (List.app sent sent', r)
  | (sent, inl e) => (sent, inl e)
  end.

(** One call of the client. *)
Definition send {A} (r : request) (answer : failure + A) : Call A := ([r], answer).

Declare Scope call_scope.
Delimit Scope call_scope with call.
Notation "x <- m ;; k" := (call_bind m (fun x => k))
  (at level 61, m at next level, right associativity) : call_scope.

(** A list comprehension whose element expression may raise. *)
Fixpoint comprehension {A B} (f : A -> Call B) (l : list A) : Call (list B) :=
  match l with
  | [] => call_ret []
  | x :: t =>
      call_bind (f x) (fun y =>
      call_bind (comprehension f t) (fun ys => call_ret (y :: ys)))
  end.

(** [l[-1]]: raises [IndexError] on the empty list. *)
Definition item_last {A} (l : list A) : Call A :=
  match rev l with
  | x :: _ => call_ret x
  | [] => call_raise IndexError
  end.

(** [sorted(l, key=lambda x: x[1], reverse=True)]: the greatest key first,
    and elements with equal keys in the order they had. *)
Fixpoint insert_desc (x : string * Z) (l : list (string * Z)) : list (string * Z) :=
  match l with
  | [] => [x]
  | y :: t => if (snd x <? snd y)%Z then y :: insert_desc x t else x :: l
  end.

Definition sorted_desc (l : list (string * Z)) : list (string * Z) :=
  fold_right insert_desc [] l.

(** [self.repository] and the like, for the methods whose arguments bear the
    names of the attributes. *)
Definition self_location (self : Self) : option string := location self.
Definition self_repository (self : Self) : option string := repository self.
Definition self_image (self : Self) : option string := image self.
Definition self_tag (self : Self) : option string := tag self.
Definition self_version (self : Self) : option string := version self.

Module Methods.
Section WithClient.

Local Open Scope call_scope.

Variable Resource : Type.
Variable client : Client Resource.

(** [ls_repositories(full_id)] *)
Definition ls_repositories (self : Self) (full_id : bool) : Call (list string) :=
  output <- send (ListRepositories (_get_parent self))
              (client_list_repositories client (_get_parent self)) ;;
  if negb full_id then
    comprehension (fun repository => item_last (Py.split repository "/")) output
  else call_ret output.

(** [ls_files(repository)] *)
Definition ls_files (self : Self) (repository : option string) : Call (list string) :=
  let repository := Py.or_ repository (self_repository self) in
  let parent := _get_parent self ++ "/repositories/" ++ Py.fmt repository in
  send (ListFiles parent) (client_list_files client parent).

(** [ls_images(repository, image, full_id)] *)
Definition ls_images (self : Self) (repository image : option string)
    (full_id : bool) : Call (list string) :=
  let repository := Py.or_ repository (self_repository self) in
  let image := Py.or_ image (self_image self) in
  let parent := _get_parent self ++ "/repositories/" ++ Py.fmt repository in
  output <- send (ListPackages parent) (client_list_packages client parent) ;;
  if negb full_id then
    let images :=
      map (fun package => Py.replace package (parent ++ "/packages/") "") output in
    call_ret (map (fun image => Py.fmt repository ++ "/" ++ image) images)
  else call_ret output.

(** [ls_versions(repository, image, tag, full_id)] *)
Definition ls_versions (self : Self) (repository image tag : option string)
    (full_id : bool) : Call (list string) :=
  let repository := Py.or_ repository (self_repository self) in
  let image := Py.or_ image (self_image self) in
  let tag := Py.or_ tag (self_tag self) in
  let parent :=
    _get_parent self ++ "/repositories/" ++ Py.fmt repository
      ++ "/packages/" ++ Py.fmt image in
  output <- send (ListVersions parent) (client_list_versions client parent) ;;
  let output := sorted_desc output in
  let output := map fst output in
  if negb full_id then
    let versions :=
      map (fun tag => Py.replace tag (parent ++ "/versions/") "") output in
    call_ret
      (map (fun version =>
              Py.fmt repository ++ "/" ++ Py.fmt image ++ "/" ++ version)
         versions)
  else call_ret output.

(** [ls] *)
Definition ls (self : Self) : Call (option (list string)) :=
  if level_is self "image" then
    l <- ls_versions self None None None false ;; call_ret (Some l)
  else if level_is self "repository" then
    l <- ls_images self None None false ;; call_ret (Some l)
  else if level_is self "location" then
    l <- ls_repositories self false ;; call_ret (Some l)
  else if level_is self "project" then
    call_raise (ValueError "Cannot list items at the project level.")
  else call_ret None.

(** [get_repository(repository)] *)
Definition get_repository (self : Self) (repository : option string)
  : Call Resource :=
  let repository := Py.or_ repository (self_repository self) in
  let parent := _get_parent self ++ "/repositories/" ++ Py.fmt repository in
  send (GetRepository parent) (client_get_repository client parent).

(** [get_image(repository, image)] *)
Definition get_image (self : Self) (repository image : option string)
  : Call Resource :=
  let repository := Py.or_ repository (self_repository self) in
  let image := Py.or_ image (self_image self) in
  let parent :=
    _get_parent self ++ "/repositories/" ++ Py.fmt repository
      ++ "/packages/" ++ Py.fmt image in
  send (GetPackage parent) (client_get_package client parent).

(** [get_version(repository, image, version)] *)
Definition get_version (self : Self) (repository image version : option string)
  : Call Resource :=
  let repository := Py.or_ repository (self_repository self) in
  let image := Py.or_ image (self_image self) in
  let version := Py.or_ version (self_version self) in
  let parent :=
    _get_parent self ++ "/repositories/" ++ Py.fmt repository
      ++ "/packages/" ++ Py.fmt image
      ++ "/versions/sha256:" ++ Py.fmt version in
  send (GetVersion parent) (client_get_version client parent).

(** [get_version_from_tag(repository, image, tag)]: the digest of the version
    the tag points to. *)
Definition get_version_from_tag (self : Self) (repository image tag : option string)
  : Call string :=
  let repository := Py.or_ repository (self_repository self) in
  let image := Py.or_ image (self_image self) in
  let tag := Py.or_ tag (self_tag self) in
  let parent :=
    _get_parent self ++ "/repositories/" ++ Py.fmt repository
      ++ "/packages/" ++ Py.fmt image ++ "/tags/" ++ Py.fmt tag in
  result <- send (GetTag parent) (client_get_tag client parent) ;;
  match result with
  | None =>
      call_raise
        (ValueError
           ("Tag not found in " ++ Py.fmt (self_location self) ++ "/"
              ++ Py.fmt repository ++ "/" ++ Py.fmt image ++ "."))
  | Some version =>
      let sha256_version :=
        Py.replace version
          (_get_parent self ++ "/repositories/" ++ Py.fmt repository
             ++ "/packages/" ++ Py.fmt image ++ "/versions/sha256:") "" in
      call_ret sha256_version
  end.

(** [get_tag(repository, image, tag)] *)
Definition get_tag (self : Self) (repository image tag : option string)
  : Call Resource :=
  version <- get_version_from_tag self repository image tag ;;
  get_version self repository image (Some version).

(** [get] *)
Definition get (self : Self) : Call (option Resource) :=
  if level_is self "repository" then
    r <- get_repository self None ;; call_ret (Some r)
  else if level_is self "image" then
    r <- get_image self None None ;; call_ret (Some r)
  else if level_is self "digest" then
    if Py.truthy (self_tag self) then
      r <- get_tag self None None None ;; call_ret (Some r)
    else if Py.truthy (self_version self) then
      r <- get_version self None None None ;; call_ret (Some r)
    else call_ret None
  else call_raise (ValueError "Cannot get item at this level.").

End WithClient.
End Methods.

(** A piece of a listed name that can be handed back as a path segment: not
    empty, and without [/] and [:] (an escaped [%2F] may occur in it). *)
Definition atom (s : string) : bool :=
  negb (s =? "") && negb (Py.contains "/" s) && negb (Py.contains ":" s).

(** A client that answers every listing with the empty list and finds no
    tag, for examples. *)
Definition client0 : Client unit :=
  mkClient unit
    (fun _ => inr []) (fun _ => inr []) (fun _ => inr []) (fun _ => inr [])
    (fun _ => inr tt) (fun _ => inr tt) (fun _ => inr tt) (fun _ => inr None).

(** A client with two repositories, two packages and two versions under
    whatever parent it is asked for, and one tag, for examples. *)
Definition client1 : Client unit :=
  mkClient unit
    (fun parent =>
       inr [parent ++ "/repositories/r1"; parent ++ "/repositories/r2"])
    (fun _ => inr [])
    (fun parent => inr [parent ++ "/packages/img1"; parent ++ "/packages/a%2Fb"])
    (fun parent =>
       inr [(parent ++ "/versions/sha256:aaa", 1%Z);
            (parent ++ "/versions/sha256:bbb", 2%Z)])
    (fun _ => inr tt) (fun _ => inr tt) (fun _ => inr tt)
    (fun _ =>
       inr (Some
              "projects/proj/locations/europe-west2/repositories/r1/packages/img1/versions/sha256:abc")).

(** ** Facts about the string primitives *)

Module PyFacts.
Import Py.

Lemma append_assoc (a b c : string) : (a ++ b) ++ c = a ++ b ++ c.
Proof. induction a as [|x a IH]; simpl; [reflexivity | now rewrite IH]. Qed.

Lemma append_empty_r (a : string) : a ++ "" = a.
Proof. induction a as [|x a IH]; simpl; [reflexivity | now rewrite IH]. Qed.

Lemma length_append (a b : string) :
  String.length (a ++ b) = String.length a + String.length b.
Proof. induction a as [|x a IH]; simpl; [reflexivity | now rewrite IH]. Qed.

(** [startswith] only looks at as many characters as the pattern has. *)
Lemma startswith_short (pat u v : string) :
  String.length pat <= String.length u ->
  startswith (u ++ v) pat = startswith u pat.
Proof.
  revert u. induction pat as [|b pat IH]; intros [|a u] H; simpl in *;
    try reflexivity; try lia.
  rewrite IH by lia. reflexivity.
Qed.

Lemma startswith_app (p r : string) : startswith (p ++ r) p = true.
Proof.
  induction p as [|b p IH]; simpl; [reflexivity|].
  now rewrite Ascii.eqb_refl, IH.
Qed.

(** A pattern without the character [c] cannot reach past a [c]. *)
Lemma contains_char_cons (c p : ascii) (pat : string) :
  contains (String c "") (String p pat) = false ->
  Ascii.eqb p c = false /\ contains (String c "") pat = false.
Proof.
  simpl. intros H. apply orb_false_iff in H. destruct H as [H1 H2].
  rewrite andb_true_r in H1. split; assumption.
Qed.

Lemma startswith_stop (c : ascii) (pat u y : string) :
  contains (String c "") pat = false ->
  startswith (u ++ String c y) pat = startswith u pat.
Proof.
  revert u. induction pat as [|p pat IH]; intros u H; [now destruct u|].
  apply contains_char_cons in H. destruct H as [Hp Hpat].
  destruct u as [|a u]; simpl.
  - rewrite Ascii.eqb_sym, Hp. reflexivity.
  - rewrite IH by assumption. reflexivity.
Qed.

Lemma contains_empty (pat : string) :
  pat <> "" -> contains pat "" = false.
Proof. destruct pat; [congruence | reflexivity]. Qed.

(** An occurrence of a pattern without [c] lies on one side of a [c]. *)
Lemma contains_around (c : ascii) (pat x y : string) :
  pat <> "" ->
  contains (String c "") pat = false ->
  contains pat (x ++ String c y) = contains pat x || contains pat y.
Proof.
  intros Hne Hc. induction x as [|a x IH].
  - cbn [append]. rewrite (contains_empty pat Hne). cbn [contains orb].
    change (String c y) with ("" ++ String c y).
    rewrite (startswith_stop c pat "" y Hc).
    destruct pat; [congruence | reflexivity].
  - cbn [append contains]. rewrite IH.
    change (String a (x ++ String c y)) with (String a x ++ String c y).
    rewrite (startswith_stop c pat (String a x) y Hc).
    now rewrite orb_assoc.
Qed.

(** ... hence inside one of the pieces joined with [c]. *)
Lemma contains_join (c : ascii) (pat : string) (segs : list string) :
  pat <> "" ->
  contains (String c "") pat = false ->
  contains pat (join (String c "") segs) = existsb (contains pat) segs.
Proof.
  intros Hne Hc. induction segs as [|x t IH].
  - simpl. apply contains_empty, Hne.
  - destruct t as [|y t].
    + simpl. now rewrite orb_false_r.
    + change (join (String c "") (x :: y :: t))
        with (x ++ String c (join (String c "") (y :: t))).
      rewrite (contains_around c pat x _ Hne Hc), IH. reflexivity.
Qed.

(** A one-character pattern, over a concatenation. *)
Lemma contains_char_app (c : ascii) (a b : string) :
  contains (String c "") (a ++ b) = contains (String c "") a || contains (String c "") b.
Proof.
  induction a as [|x a IH].
  - reflexivity.
  - cbn [append contains startswith]. rewrite IH, !andb_true_r.
    now rewrite orb_assoc.
Qed.

(** A string without the last character of a pattern is without the pattern. *)
Lemma startswith_last (pre : string) (z : ascii) (s : string) :
  startswith s (pre ++ String z "") = true ->
  contains (String z "") s = true.
Proof.
  revert s. induction pre as [|p pre IH]; intros [|a s]; simpl; try discriminate.
  - rewrite andb_true_r. intros ->. reflexivity.
  - intros H. apply andb_true_iff in H. destruct H as [_ H].
    apply IH in H. rewrite H. apply orb_true_r.
Qed.

Lemma contains_last (pre : string) (z : ascii) (s : string) :
  contains (String z "") s = false ->
  contains (pre ++ String z "") s = false.
Proof.
  induction s as [|a s IH]; intros H.
  - apply contains_empty. now destruct pre.
  - cbn [contains]. apply orb_false_iff. split.
    + destruct (startswith (String a s) (pre ++ String z "")) eqn:E; [|reflexivity].
      apply startswith_last in E. congruence.
    + apply IH. cbn [contains] in H. apply orb_false_iff in H. apply H.
Qed.

(** *** [split] *)

Lemma split_from_skip (sep x r : string) :
  split_from sep (String.length x) (x ++ r) = split_from sep 0 r.
Proof. induction x as [|a x IH]; simpl; [reflexivity | exact IH]. Qed.

Lemma split_sep (sep r : string) :
  sep <> "" -> split (sep ++ r) sep = "" :: split r sep.
Proof.
  destruct sep as [|c sep]; [congruence|]. intros _.
  unfold split. cbn [append split_from].
  change (String c (sep ++ r)) with (String c sep ++ r).
  rewrite startswith_app.
  replace (String.length (String c sep) - 1) with (String.length sep)
    by (cbn [String.length]; lia).
  now rewrite split_from_skip.
Qed.

Lemma split_cons (sep : string) (a : ascii) (s : string) :
  startswith (String a s) sep = false ->
  split (String a s) sep = cons_head a (split s sep).
Proof. unfold split. cbn [split_from]. now intros ->. Qed.

(** Without an occurrence of the separator there is one piece. *)
Lemma split_absent (sep s : string) :
  contains sep s = false -> split s sep = [s].
Proof.
  induction s as [|a s IH]; intros H; [reflexivity|].
  cbn [contains] in H. apply orb_false_iff in H. destruct H as [H1 H2].
  rewrite split_cons, IH by assumption. reflexivity.
Qed.

(** The first piece ends where the separator first occurs. *)
Lemma split_first (pre : string) (z : ascii) (a b : string) :
  contains (pre ++ String z "") (a ++ pre) = false ->
  split (a ++ (pre ++ String z "") ++ b) (pre ++ String z "")
  = a :: split b (pre ++ String z "").
Proof.
  set (sep := pre ++ String z "").
  assert (Hne : sep <> "") by (subst sep; now destruct pre).
  induction a as [|x a IH]; intros H.
  - cbn [append]. now apply split_sep.
  - cbn [append contains] in H. apply orb_false_iff in H. destruct H as [H1 H2].
    cbn [append]. rewrite split_cons.
    + rewrite IH by assumption. reflexivity.
    + rewrite <- H1. subst sep.
      rewrite append_assoc.
      change (String x (a ++ pre ++ String z "" ++ b))
        with (String x a ++ pre ++ String z "" ++ b).
      rewrite <- (append_assoc (String x a) pre).
      change (String x (a ++ pre)) with (String x a ++ pre).
      apply startswith_short.
      rewrite !length_append. cbn [String.length]. lia.
Qed.

Lemma split_around (c : ascii) (x y : string) :
  contains (String c "") x = false ->
  split (x ++ String c y) (String c "") = x :: split y (String c "").
Proof.
  intros H.
  pose proof (split_first "" c x y) as E. cbn [append] in E.
  rewrite append_empty_r in E. now apply E.
Qed.

(** Splitting gives back the pieces that were joined. *)
Lemma split_join (c : ascii) (segs : list string) :
  segs <> [] ->
  forallb (fun s => negb (contains (String c "") s)) segs = true ->
  split (join (String c "") segs) (String c "") = segs.
Proof.
  induction segs as [|x t IH]; [congruence|]. intros _ H.
  cbn [forallb] in H. apply andb_true_iff in H. destruct H as [Hx Ht].
  apply negb_true_iff in Hx.
  destruct t as [|y t].
  - simpl. now apply split_absent.
  - change (join (String c "") (x :: y :: t))
      with (x ++ String c (join (String c "") (y :: t))).
    rewrite split_around by assumption.
    rewrite IH by (congruence || assumption). reflexivity.
Qed.

(** *** [replace] *)

Lemma replace_absent (old new s : string) :
  contains old s = false -> replace s old new = s.
Proof.
  unfold replace. induction s as [|a s IH]; intros H; [reflexivity|].
  cbn [contains] in H. apply orb_false_iff in H. destruct H as [H1 H2].
  cbn [replace_from]. rewrite H1, IH by assumption. reflexivity.
Qed.

(** *** [startswith] on a first segment *)

Lemma startswith_segment (c : ascii) (K R rest : string) :
  contains (String c "") K = false ->
  contains (String c "") R = false ->
  startswith (R ++ String c rest) (K ++ String c "") = (R =? K).
Proof.
  revert R. induction K as [|k K IH]; intros [|a R] HK HR.
  - simpl. now rewrite Ascii.eqb_refl.
  - apply contains_char_cons in HR. destruct HR as [Ha _].
    simpl. now rewrite Ha.
  - apply contains_char_cons in HK. destruct HK as [Hk _].
    simpl. now rewrite Ascii.eqb_sym, Hk.
  - apply contains_char_cons in HK. destruct HK as [_ HK].
    apply contains_char_cons in HR. destruct HR as [_ HR].
    cbn [append startswith String.eqb]. rewrite IH by assumption.
    destruct (Ascii.eqb a k); reflexivity.
Qed.

End PyFacts.

(** ** Running the constructor *)

Import Py PyFacts.

Lemma qualified_block_run (path : string) (p l : option string) (s : Self) :
  qualified_block path p l s = (inr (qualified path p l), s).
Proof.
  unfold qualified_block, qualified.
  destruct (startswith path "projects/"); [|reflexivity].
  cbv zeta. unfold bind, try_except, item, ret, raise.
  set (segs := split _ "/").
  destruct (nth_error segs 0), (nth_error segs 1); reflexivity.
Qed.

Lemma repository_block_run (pth : string) (s : Self) :
  repository_block pth s
  = (inr tt,
     mkSelf (project s) (location s)
       match nth_error (split pth "/") 0 with
       | Some x => Some x
       | None => repository s
       end
       (image s) (tag s) (version s) (level s) (path s)).
Proof.
  unfold repository_block, bind, try_except, item.
  destruct (nth_error _ 0); [reflexivity | now destruct s].
Qed.

Lemma image_block_run (pth : string) (s : Self) :
  image_block pth s
  = (inr tt,
     mkSelf (project s) (location s) (repository s)
       (image_of pth (image s)) (tag s) (version s) (level s) (path s)).
Proof.
  unfold image_block, image_of, bind, try_except, item. cbv zeta.
  destruct (1 <? _)%nat; [reflexivity|].
  destruct (slice_from 1 _) as [|x t]; reflexivity.
Qed.

Lemma version_block_run (pth : string) (s : Self) :
  version_block pth s
  = (inr tt,
     mkSelf (project s) (location s) (repository s) (image s) (tag s)
       (version_of pth (version s)) (level s) (path s)).
Proof.
  unfold version_block, version_of, bind, try_except, item.
  destruct (nth_error _ 1); [reflexivity | now destruct s].
Qed.

Lemma tag_block_run (s : Self) :
  tag_block s
  = (inr tt,
     mkSelf (project s) (location s) (repository s)
       (fst (tag_of (image s) (tag s))) (snd (tag_of (image s) (tag s)))
       (version s) (level s) (path s)).
Proof.
  unfold tag_block, tag_of, bind, try_except, item, split_method, get.
  destruct s as [p l r [i|] t v lv pa]; cbn -[nth_error split]; [|reflexivity].
  destruct (nth_error (split i ":") 1); cbn -[nth_error split]; [|reflexivity].
  destruct (nth_error (split i ":") 0); reflexivity.
Qed.

Ltac fields :=
  cbn [project location repository image tag version level path fst snd].

Ltac step lem := unfold bind at 1; rewrite lem; cbv beta iota; fields.

Lemma assign_block_run env pth proj loc kw s :
  assign_block env pth proj loc kw s
  = (inr tt, assigned env pth proj loc kw).
Proof.
  unfold assign_block.
  cbn [bind set_project set_location set_repository set_image set_tag set_version].
  fields.
  step repository_block_run. step image_block_run. step version_block_run.
  step tag_block_run.
  unfold bind, get, set_version, set_level, set_path, ret. fields.
  unfold assigned, derive.
  destruct (truthy (snd (tag_of _ _))); cbv beta iota; fields;
    unfold _get_level, _get_path, level_is; fields; reflexivity.
Qed.

Lemma init_run env pth kw :
  ArtifactRegistry env pth kw = inr (locate env pth kw).
Proof.
  unfold ArtifactRegistry, __init__, locate.
  step qualified_block_run.
  destruct (qualified _ _ _) as [[pth' proj] loc].
  now rewrite assign_block_run.
Qed.

Lemma locate_shorthand env pth kw :
  startswith pth "projects/" = false ->
  locate env pth kw = assigned env pth (kw_project kw) (kw_location kw) kw.
Proof. unfold locate, qualified. now intros ->. Qed.

(** A first segment other than ["projects"] makes a shorthand path. *)
Lemma shorthand_start (R rest : string) :
  (R =? "projects") = false ->
  contains "/" R = false ->
  startswith (R ++ "/" ++ rest) "projects/" = false.
Proof.
  intros HR Hs.
  change (R ++ "/" ++ rest) with (R ++ String "/" rest).
  change "projects/" with ("projects" ++ String "/" "").
  rewrite startswith_segment by (reflexivity || assumption). exact HR.
Qed.

Lemma join_cons (sep x : string) (l : list string) :
  l <> [] -> join sep (x :: l) = x ++ sep ++ join sep l.
Proof. destruct l; [congruence | reflexivity]. Qed.

Lemma join_snoc (sep x : string) (l : list string) :
  l <> [] -> join sep (List.app l [x]) = join sep l ++ sep ++ x.
Proof.
  induction l as [|y l IH]; [congruence|]. intros _.
  destruct l as [|z l].
  - reflexivity.
  - change (join sep (List.app (y :: z :: l) [x]))
      with (y ++ sep ++ join sep (List.app (z :: l) [x])).
    rewrite IH by congruence.
    change (join sep (y :: z :: l)) with (y ++ sep ++ join sep (z :: l)).
    now rewrite !append_assoc.
Qed.

Lemma segment_inv (s : string) :
  segment s = true ->
  s <> "" /\ contains "/" s = false /\ contains "%2F" s = false.
Proof.
  unfold segment. intros H.
  apply andb_true_iff in H. destruct H as [H H3].
  apply andb_true_iff in H. destruct H as [H1 H2].
  apply negb_true_iff in H1, H2, H3.
  apply String.eqb_neq in H1. auto.
Qed.

Lemma truthy_nonempty (s : string) : s <> "" -> truthy (Some s) = true.
Proof. destruct s; [congruence | reflexivity]. Qed.

(** The image the path gives, from the segments after the first. *)
Lemma image_of_split (pth R : string) (segs : list string) (im : option string) :
  split pth "/" = R :: segs ->
  image_of pth im
  = match segs with
    | [] => None
    | [x] => Some x
    | _ => Some (join "/" (removelast segs))
    end.
Proof.
  intros E. unfold image_of. rewrite E.
  destruct segs as [|x [|y t]]; reflexivity.
Qed.

Lemma tag_of_plain (i : string) (t : option string) :
  contains ":" i = false -> tag_of (Some i) t = (Some i, t).
Proof. intros H. unfold tag_of. now rewrite (split_absent ":" i H). Qed.

Lemma tag_of_tagged (I T : string) (t : option string) :
  contains ":" I = false -> contains ":" T = false ->
  tag_of (Some (I ++ ":" ++ T)) t = (Some I, Some T).
Proof.
  intros HI HT. unfold tag_of.
  change (I ++ ":" ++ T) with (join ":" [I; T]).
  rewrite split_join; [reflexivity | congruence |].
  cbn [forallb]. now rewrite HI, HT.
Qed.

Lemma version_of_absent (pth : string) (v : option string) :
  contains "sha256:" pth = false -> version_of pth v = v.
Proof. intros H. unfold version_of. now rewrite (split_absent _ _ H). Qed.

(** The marker at the start of the last segment, and nowhere before. *)
Lemma version_of_marker (segs : list string) (V : string) (v : option string) :
  segs <> [] ->
  existsb (contains "sha256:") segs = false ->
  contains "sha256:" V = false ->
  version_of (join "/" (List.app segs ["sha256:" ++ V])) v = Some V.
Proof.
  intros Hne Hsegs HV. unfold version_of.
  rewrite join_snoc by assumption.
  replace (join "/" segs ++ "/" ++ "sha256:" ++ V)
    with ((join "/" segs ++ "/") ++ ("sha256" ++ String ":" "") ++ V)
    by (now rewrite append_assoc).
  rewrite split_first.
  - change ("sha256" ++ String ":" "") with "sha256:".
    now rewrite (split_absent _ _ HV).
  - rewrite append_assoc, <- join_snoc by assumption.
    change ("sha256" ++ String ":" "") with "sha256:".
    rewrite (contains_join "/" "sha256:") by (discriminate || reflexivity).
    rewrite existsb_app, Hsegs. reflexivity.
Qed.

Lemma forallb_slice_1_2 {A} (f : A -> bool) (l : list A) :
  forallb f l = true -> forallb f (slice_1_2 l) = true.
Proof.
  revert l. fix IH 1. intros [|a [|b t]]; cbn [slice_1_2 forallb]; auto.
  intros H. apply andb_true_iff in H. destruct H as [_ H].
  apply andb_true_iff in H. destruct H as [Hb Ht].
  rewrite Hb. apply IH, Ht.
Qed.

(** A full resource name whose segments are free of [/], and whose values
    are free of [%2F], is taken apart into its values. *)
Lemma qualified_join (kv : list string) (p l : option string) :
  startswith (join "/" kv) "projects/" = true ->
  forallb (fun s => negb (contains "/" s)) kv = true ->
  existsb (contains "%2F") (slice_1_2 kv) = false ->
  kv <> [] -> slice_1_2 kv <> [] ->
  qualified (join "/" kv) p l
  = (join "/" (skipn 2 (slice_1_2 kv)),
     match nth_error (slice_1_2 kv) 0 with Some x => Some x | None => p end,
     nth_error (slice_1_2 kv) 1).
Proof.
  intros Hst Hkv Hesc Hne Hvals. unfold qualified. rewrite Hst.
  rewrite (split_join "/" kv Hne Hkv).
  rewrite replace_absent.
  2:{ rewrite (contains_join "/" "%2F") by (discriminate || reflexivity).
      exact Hesc. }
  rewrite (split_join "/" _ Hvals); [reflexivity|].
  now apply forallb_slice_1_2.
Qed.

Lemma contains_marker_tail (c : ascii) (V : string) :
  contains (String c "") ("sha256:" ++ V)
  = contains (String c "") "sha256:" || contains (String c "") V.
Proof. apply contains_char_app. Qed.

Lemma or_first (a b c : option string) :
  truthy a = true -> or_ (or_ a b) c = a.
Proof. intros H. unfold or_. now rewrite H, H. Qed.

Lemma assigned_project env pth proj loc kw :
  project (assigned env pth proj loc kw)
  = or_ (or_ proj (environ_PROJECT env)) (auth_default_project env).
Proof. reflexivity. Qed.

Lemma assigned_location env pth proj loc kw :
  location (assigned env pth proj loc kw) = loc.
Proof. reflexivity. Qed.

(** The level stored is the level of the attributes stored with it. *)
Lemma assigned_level env pth proj loc kw :
  level (assigned env pth proj loc kw)
  = _get_level (assigned env pth proj loc kw).
Proof. reflexivity. Qed.

Lemma assigned_path env pth proj loc kw :
  path (assigned env pth proj loc kw)
  = _get_path true (assigned env pth proj loc kw).
Proof. reflexivity. Qed.

(** The part of a path after project and location, ending in a version. *)
Lemma assigned_version env (R : string) (pre : list string) (V : string)
    (proj loc : option string) (kw : Kwargs) :
  pre <> [] ->
  forallb (fun s => negb (contains "/" s)) (R :: pre) = true ->
  contains "sha256:" R = false ->
  existsb (contains ":") pre = false ->
  contains "/" V = false -> contains "sha256:" V = false ->
  let self := assigned env (join "/" (R :: List.app pre ["sha256:" ++ V])) proj loc kw in
  repository self = Some R
  /\ image self = Some (join "/" pre)
  /\ tag self = kw_tag kw
  /\ version self = (if truthy (kw_tag kw) then None else Some V).
Proof.
  intros Hne Hs HR Hc HVs HV.
  assert (Hsplit : split (join "/" (R :: List.app pre ["sha256:" ++ V])) "/"
                   = R :: List.app pre ["sha256:" ++ V]).
  { apply split_join; [congruence|].
    change (R :: List.app pre ["sha256:" ++ V])
      with (List.app (R :: pre) ["sha256:" ++ V]).
    rewrite forallb_app, Hs. cbn [forallb].
    rewrite (contains_marker_tail "/"), HVs. reflexivity. }
  assert (Him : image_of (join "/" (R :: List.app pre ["sha256:" ++ V])) (kw_image kw)
                = Some (join "/" pre)).
  { rewrite (image_of_split _ _ _ _ Hsplit).
    destruct pre as [|x [|y t]]; [congruence | reflexivity |].
    change (List.app (x :: y :: t) ["sha256:" ++ V])
      with (x :: y :: List.app t ["sha256:" ++ V]).
    cbv iota.
    change (x :: y :: List.app t ["sha256:" ++ V])
      with (List.app (x :: y :: t) ["sha256:" ++ V]).
    now rewrite removelast_last. }
  assert (Htag : tag_of (Some (join "/" pre)) (kw_tag kw)
                 = (Some (join "/" pre), kw_tag kw)).
  { apply tag_of_plain.
    rewrite (contains_join "/" ":") by (discriminate || reflexivity). exact Hc. }
  assert (Hver : version_of (join "/" (R :: List.app pre ["sha256:" ++ V])) (kw_version kw)
                 = Some V).
  { change (R :: List.app pre ["sha256:" ++ V])
      with (List.app (R :: pre) ["sha256:" ++ V]).
    apply version_of_marker; [congruence | | assumption].
    cbn [existsb]. rewrite HR. cbn [orb].
    clear - Hc. induction pre as [|x t IH]; [reflexivity|].
    cbn [existsb] in *. apply orb_false_iff in Hc. destruct Hc as [Hx Ht].
    change "sha256:" with ("sha256" ++ String ":" "").
    rewrite (contains_last "sha256" ":" x Hx). cbn [orb].
    apply IH, Ht. }
  intros self. subst self. unfold assigned, derive. fields.
  rewrite Hsplit, Him, Htag, Hver. cbn [nth_error fst snd]. auto.
Qed.

(** The attributes read from the full name of a version. *)
Lemma locate_version (env : Env) (P L R I V : string) :
  segment P = true -> segment L = true -> segment R = true ->
  segment I = true -> segment V = true ->
  contains "sha256:" R = false ->
  contains ":" I = false -> contains ":" V = false ->
  let self := locate env (qualified_version P L R I V) defaults in
  project self = Some P /\ location self = Some L
  /\ repository self = Some R /\ image self = Some I
  /\ version self = Some V /\ tag self = None
  /\ level self = Some "digest".
Proof.
  intros HP HL HR HI HV HRm HIc HVc.
  apply segment_inv in HP, HL, HR, HI, HV.
  destruct HP as (HPn & HPs & HPe), HL as (HLn & HLs & HLe),
    HR as (HRn & HRs & HRe), HI as (HIn & HIs & HIe), HV as (HVn & HVs & HVe).
  assert (HVm : contains "sha256:" V = false)
    by (change "sha256:" with ("sha256" ++ String ":" ""); now apply contains_last).
  intros self. subst self.
  unfold locate, qualified_version.
  change ("projects/" ++ P ++ "/locations/" ++ L ++ "/repositories/" ++ R
            ++ "/packages/" ++ I ++ "/versions/sha256:" ++ V)
    with (join "/" ["projects"; P; "locations"; L; "repositories"; R;
                    "packages"; I; "versions"; "sha256:" ++ V]).
  rewrite qualified_join; try congruence; try reflexivity.
  - cbn [slice_1_2 skipn nth_error].
    pose proof (assigned_version env R [I] V (Some P) (Some L) defaults) as A.
    cbn [List.app forallb existsb] in A.
    rewrite HRs, HIs, HIc in A.
    specialize (A ltac:(congruence) eq_refl HRm eq_refl HVs HVm).
    cbv zeta in A. change (kw_tag defaults) with (@None string) in A.
    change (truthy None) with false in A. cbv iota in A.
    change (join "/" [I]) with I in A. destruct A as (A1 & A2 & A3 & A4).
    repeat split; try assumption.
    + rewrite assigned_project. apply or_first, truthy_nonempty, HPn.
    + rewrite assigned_level. unfold _get_level. rewrite A3, A4.
      now rewrite (truthy_nonempty V HVn), orb_true_r.
  - cbn [forallb]. rewrite HPs, HLs, HRs, HIs, (contains_marker_tail "/"), HVs.
    reflexivity.
  - cbn [slice_1_2 existsb]. rewrite HPe, HLe, HRe, HIe. cbn [orb].
    rewrite orb_false_r. simpl. exact HVe.
  - cbn [slice_1_2]. congruence.
Qed.

(** [C1] (amended) For all segments P, L, R, I, V that are not empty and
    contain neither [/] nor its escape [%2F], with no [sha256:] in R and no
    [:] in I and V, constructing ArtifactRegistry from
    [projects/P/locations/L/repositories/R/packages/I/versions/sha256:V] with
    the default keyword arguments yields project P, location L, repository R,
    image I, version V, no tag, and level ["digest"]. *)
Theorem qualified_version_parsed (env : Env) (P L R I V : string) :
  segment P = true -> segment L = true -> segment R = true ->
  segment I = true -> segment V = true ->
  contains "sha256:" R = false ->
  contains ":" I = false -> contains ":" V = false ->
  exists self,
    ArtifactRegistry env (qualified_version P L R I V) defaults = inr self
    /\ project self = Some P /\ location self = Some L
    /\ repository self = Some R /\ image self = Some I
    /\ version self = Some V /\ tag self = None
    /\ level self = Some "digest".
Proof.
  intros. rewrite init_run. eexists. split; [reflexivity|].
  now apply locate_version.
Qed.

(** [C1] The claim as stated fails when a segment holds the escape [%2F]:
    the constructor turns it into [/], and the image is no longer the
    segment I.  It also fails when R holds the marker [sha256:]: the version
    is then the text after the first marker, inside R. *)
Lemma qualified_version_unparsed :
  ("a%2Fb" <> "" /\ contains "/" "a%2Fb" = false
   /\ contains ":" "a%2Fb" = false /\ contains "sha256:" "a%2Fb" = false
   /\ exists self,
        ArtifactRegistry env0 (qualified_version "p" "l" "r" "a%2Fb" "v") defaults
        = inr self
        /\ image self = Some "a/b" /\ image self <> Some "a%2Fb")
  /\ ("sha256:x" <> "" /\ contains "/" "sha256:x" = false
      /\ exists self,
           ArtifactRegistry env0 (qualified_version "p" "l" "sha256:x" "i" "v") defaults
           = inr self
           /\ version self = Some "x/i/" /\ version self <> Some "v").
Proof.
  split.
  - split; [discriminate|]. do 3 (split; [reflexivity|]).
    eexists. split; [vm_compute; reflexivity|].
    split; [reflexivity | discriminate].
  - split; [discriminate|]. split; [reflexivity|].
    eexists. split; [vm_compute; reflexivity|].
    split; [reflexivity | discriminate].
Qed.

Lemma qualified_version_parsed_witness :
  exists self,
    ArtifactRegistry env0 (qualified_version "p1" "us" "r1" "img1" "abc123") defaults
    = inr self
    /\ project self = Some "p1" /\ location self = Some "us"
    /\ repository self = Some "r1" /\ image self = Some "img1"
    /\ version self = Some "abc123" /\ tag self = None
    /\ level self = Some "digest".
Proof.
  apply (qualified_version_parsed env0 "p1" "us" "r1" "img1" "abc123");
    reflexivity.
Defined.


(** [C2] (amended) For every shorthand path [R/I:T] in which R, I and T are
    not empty, none of them contains [/], R is not the word [projects], and
    I and T contain no [:], constructing ArtifactRegistry from it, whatever
    the keyword arguments, yields repository R, image I, tag T and version
    [None]. *)
Theorem shorthand_tag_parsed (env : Env) (kw : Kwargs) (R I T : string) :
  R <> "" -> I <> "" -> T <> "" ->
  (R =? "projects") = false ->
  contains "/" R = false -> contains "/" I = false -> contains "/" T = false ->
  contains ":" I = false -> contains ":" T = false ->
  exists self,
    ArtifactRegistry env (R ++ "/" ++ I ++ ":" ++ T) kw = inr self
    /\ repository self = Some R /\ image self = Some I
    /\ tag self = Some T /\ version self = None.
Proof.
  intros _ _ HT HR HRs HIs HTs HIc HTc.
  rewrite init_run. eexists. split; [reflexivity|].
  rewrite locate_shorthand by (now apply shorthand_start).
  assert (Hsplit : split (R ++ "/" ++ I ++ ":" ++ T) "/" = [R; I ++ ":" ++ T]).
  { change (R ++ "/" ++ I ++ ":" ++ T) with (join "/" [R; I ++ ":" ++ T]).
    apply split_join; [congruence|].
    cbn [forallb]. rewrite HRs, (contains_char_app "/" I (":" ++ T)), HIs.
    simpl. now rewrite HTs. }
  unfold assigned, derive. fields.
  rewrite Hsplit, (image_of_split _ _ _ _ Hsplit), (tag_of_tagged I T) by assumption.
  cbn [nth_error fst snd]. rewrite (truthy_nonempty T HT). auto.
Qed.

Lemma shorthand_tag_parsed_witness :
  exists self,
    ArtifactRegistry env0 ("r1" ++ "/" ++ "img1" ++ ":" ++ "latest") defaults = inr self
    /\ repository self = Some "r1" /\ image self = Some "img1"
    /\ tag self = Some "latest" /\ version self = None.
Proof.
  apply (shorthand_tag_parsed env0 defaults "r1" "img1" "latest");
    (discriminate || reflexivity).
Defined.

(** [C2] The claim as stated fails for a repository named [projects], which
    makes the path a full resource name, and it puts no condition on [/] in
    R or T: a [/] inside R or T moves the segment boundaries. *)
Lemma shorthand_tag_unparsed :
  ("projects" <> "" /\ "img" <> "" /\ "t" <> ""
   /\ contains "/" "img" = false /\ contains ":" "img" = false
   /\ contains ":" "t" = false /\ contains "sha256:" "t" = false
   /\ exists self,
        ArtifactRegistry env0 ("projects" ++ "/" ++ "img" ++ ":" ++ "t") defaults
        = inr self
        /\ repository self = Some "" /\ image self = None /\ tag self = None)
  /\ (exists self,
        ArtifactRegistry env0 ("a/b" ++ "/" ++ "img" ++ ":" ++ "t") defaults
        = inr self
        /\ repository self = Some "a" /\ image self = Some "b")
  /\ (contains ":" "x/y" = false /\ contains "sha256:" "x/y" = false
      /\ exists self,
           ArtifactRegistry env0 ("r" ++ "/" ++ "img" ++ ":" ++ "x/y") defaults
           = inr self
           /\ image self = Some "img" /\ tag self = Some "x").
Proof.
  split; [|split].
  - do 3 (split; [discriminate|]). do 4 (split; [reflexivity|]).
    eexists. split; [vm_compute; reflexivity|]. repeat split.
  - eexists. split; [vm_compute; reflexivity|]. repeat split.
  - do 2 (split; [reflexivity|]).
    eexists. split; [vm_compute; reflexivity|]. repeat split.
Qed.


Lemma existsb_removelast {A} (f : A -> bool) (l : list A) :
  existsb f l = false -> existsb f (removelast l) = false.
Proof.
  induction l as [|x [|y t] IH]; [reflexivity | reflexivity |].
  intros H. cbn [existsb] in H. apply orb_false_iff in H. destruct H as [Hx Ht].
  change (removelast (x :: y :: t)) with (x :: removelast (y :: t)).
  cbn [existsb]. rewrite Hx. now apply IH.
Qed.





(** *** Joining the pieces of a split gives the string back *)

Lemma split_from_nonempty (sep : string) (k : nat) (s : string) :
  split_from sep k s <> [].
Proof.
  revert k. induction s as [|a s IH]; intros k; [discriminate|].
  cbn [split_from]. destruct k as [|k]; [|apply IH].
  destruct (startswith _ _); [discriminate|].
  unfold cons_head. destruct (split_from sep 0 s); discriminate.
Qed.

Lemma join_cons_head (sep : string) (a : ascii) (l : list string) :
  l <> [] -> join sep (cons_head a l) = String a (join sep l).
Proof. destruct l as [|h [|y t]]; [congruence | reflexivity | reflexivity]. Qed.

Lemma join_split (c : ascii) (s : string) :
  join (String c "") (split s (String c "")) = s.
Proof.
  induction s as [|a s IH]; [reflexivity|].
  unfold split in *. cbn [split_from startswith String.length Nat.sub].
  rewrite andb_true_r. destruct (Ascii.eqb_spec a c) as [->|_].
  - rewrite join_cons by apply split_from_nonempty. now rewrite IH.
  - rewrite join_cons_head by apply split_from_nonempty. now rewrite IH.
Qed.

(** A pattern without [/] occurs in a path just when it occurs in a segment. *)
Lemma contains_split (pat s : string) :
  pat <> "" -> contains "/" pat = false ->
  contains pat s = existsb (contains pat) (split s "/").
Proof.
  intros Hne Hc. rewrite <- (join_split "/" s) at 1.
  now apply contains_join.
Qed.

Lemma existsb_tl {A} (f : A -> bool) (l : list A) :
  existsb f l = false -> existsb f (tl l) = false.
Proof.
  destruct l as [|x t]; [reflexivity|]. cbn [existsb tl]. intros H.
  apply orb_false_iff in H. apply H.
Qed.

(** Without a [:] in the path, the tag block finds nothing to take. *)
Lemma tag_of_image_plain (pth : string) (im t : option string) :
  contains ":" pth = false ->
  tag_of (image_of pth im) t = (image_of pth im, t).
Proof.
  intros H. rewrite (contains_split ":" pth) in H by (discriminate || reflexivity).
  apply existsb_tl in H. unfold image_of, slice_from, slice_but_last.
  change (skipn 1 (split pth "/")) with (tl (split pth "/")).
  destruct (tl (split pth "/")) as [|x [|y t']] eqn:E; cbn -[removelast join].
  - reflexivity.
  - apply tag_of_plain. cbn [existsb] in H. now rewrite orb_false_r in H.
  - apply tag_of_plain.
    rewrite (contains_join "/" ":") by (discriminate || reflexivity).
    now apply existsb_removelast.
Qed.

(** The keywords that do reach the object.  For a path that is not a full
    resource name, project and location are those of the keywords (project
    falling back on the environment); without a [sha256:] in the path the
    version is the keyword version, or [None] under a truthy tag; without a
    [:] in the path the tag is the keyword tag.  So it is with the empty
    path: the blocks that read the version and the tag off the path fall back
    on the keywords when the path has none. *)
Lemma keywords_seed_attributes (env : Env) (kw : Kwargs) :
  (forall pth : string,
      startswith pth "projects/" = false ->
      exists self,
        ArtifactRegistry env pth kw = inr self
        /\ project self
           = or_ (or_ (kw_project kw) (environ_PROJECT env)) (auth_default_project env)
        /\ location self = kw_location kw
        /\ (contains "sha256:" pth = false ->
            version self = if truthy (tag self) then None else kw_version kw)
        /\ (contains ":" pth = false -> tag self = kw_tag kw))
  /\ (exists self,
        ArtifactRegistry env "" kw = inr self
        /\ project self
           = or_ (or_ (kw_project kw) (environ_PROJECT env)) (auth_default_project env)
        /\ location self = kw_location kw
        /\ tag self = kw_tag kw
        /\ version self = if truthy (kw_tag kw) then None else kw_version kw).
Proof.
  split.
  - intros pth Hst. rewrite init_run. eexists. split; [reflexivity|].
    rewrite locate_shorthand by assumption.
    split; [reflexivity|]. split; [reflexivity|]. split.
    + intros H. unfold assigned, derive. fields.
      now rewrite (version_of_absent _ _ H).
    + intros H. unfold assigned, derive. fields.
      now rewrite (tag_of_image_plain _ _ _ H).
  - rewrite init_run. eexists. split; [reflexivity|]. repeat split.
Qed.

Lemma plain_inv (s : string) :
  plain s = true ->
  s <> "" /\ contains "/" s = false /\ contains "%2F" s = false
  /\ contains ":" s = false /\ contains "sha256:" s = false.
Proof.
  unfold plain. intros H. apply andb_true_iff in H. destruct H as [H1 H2].
  apply segment_inv in H1. destruct H1 as (Hn & Hs & He).
  apply negb_true_iff in H2. repeat split; try assumption.
  change "sha256:" with ("sha256" ++ String ":" ""). now apply contains_last.
Qed.

(** The part of a full name after project and location, for a repository
    alone and for a repository with an image. *)
Lemma assigned_repository env (R : string) (proj loc : option string) :
  contains "/" R = false -> contains "sha256:" R = false ->
  let self := assigned env R proj loc defaults in
  repository self = Some R /\ image self = None
  /\ tag self = None /\ version self = None.
Proof.
  intros Hs Hm.
  assert (Hsplit : split R "/" = [R]) by now apply split_absent.
  intros self. subst self. unfold assigned, derive. fields.
  rewrite Hsplit, (image_of_split _ _ _ _ Hsplit), (version_of_absent _ _ Hm).
  repeat split.
Qed.

Lemma assigned_image env (R I : string) (proj loc : option string) :
  contains "/" R = false -> contains "sha256:" R = false ->
  contains "/" I = false -> contains ":" I = false ->
  let self := assigned env (join "/" [R; I]) proj loc defaults in
  repository self = Some R /\ image self = Some I
  /\ tag self = None /\ version self = None.
Proof.
  intros HRs HRm HIs HIc.
  assert (Hsplit : split (join "/" [R; I]) "/" = [R; I]).
  { apply split_join; [congruence|]. cbn [forallb]. now rewrite HRs, HIs. }
  assert (Hver : version_of (join "/" [R; I]) (kw_version defaults) = None).
  { apply version_of_absent.
    rewrite (contains_join "/" "sha256:") by (discriminate || reflexivity).
    cbn [existsb]. rewrite HRm. change "sha256:" with ("sha256" ++ String ":" "").
    now rewrite (contains_last "sha256" ":" I HIc). }
  intros self. subst self. unfold assigned, derive. fields.
  rewrite Hsplit, (image_of_split _ _ _ _ Hsplit), (tag_of_plain I _ HIc), Hver.
  repeat split.
Qed.

Lemma assigned_level_value env pth proj loc kw (lv : option string) :
  _get_level (assigned env pth proj loc kw) = lv ->
  level (assigned env pth proj loc kw) = lv.
Proof. now rewrite assigned_level. Qed.

(** The attributes read from the full name of a repository and of an image. *)
Lemma locate_repository (env : Env) (P L R : string) :
  segment P = true -> segment L = true -> segment R = true ->
  contains "sha256:" R = false ->
  let self :=
    locate env ("projects/" ++ P ++ "/locations/" ++ L ++ "/repositories/" ++ R)
      defaults in
  project self = Some P /\ location self = Some L
  /\ repository self = Some R /\ image self = None
  /\ version self = None /\ tag self = None
  /\ level self = Some "repository".
Proof.
  intros HP HL HR HRm.
  apply segment_inv in HP, HL, HR.
  destruct HP as (HPn & HPs & HPe), HL as (HLn & HLs & HLe),
    HR as (HRn & HRs & HRe).
  intros self. subst self. unfold locate.
  change ("projects/" ++ P ++ "/locations/" ++ L ++ "/repositories/" ++ R)
    with (join "/" ["projects"; P; "locations"; L; "repositories"; R]).
  rewrite qualified_join; try congruence; try reflexivity.
  - cbn [slice_1_2 skipn nth_error]. change (join "/" [R]) with R.
    destruct (assigned_repository env R (Some P) (Some L) HRs HRm)
      as (A1 & A2 & A3 & A4).
    repeat split; try assumption.
    + rewrite assigned_project. apply or_first, truthy_nonempty, HPn.
    + apply assigned_level_value. unfold _get_level.
      rewrite A1, A2, A3, A4. change (truthy None) with false. cbn [orb].
      now rewrite (truthy_nonempty R HRn).
  - cbn [forallb]. now rewrite HPs, HLs, HRs.
  - cbn [slice_1_2 existsb]. now rewrite HPe, HLe, HRe.
  - cbn [slice_1_2]. congruence.
Qed.

Lemma locate_image (env : Env) (P L R I : string) :
  segment P = true -> segment L = true -> segment R = true ->
  segment I = true ->
  contains "sha256:" R = false -> contains ":" I = false ->
  let self :=
    locate env ("projects/" ++ P ++ "/locations/" ++ L ++ "/repositories/" ++ R
                  ++ "/packages/" ++ I) defaults in
  project self = Some P /\ location self = Some L
  /\ repository self = Some R /\ image self = Some I
  /\ version self = None /\ tag self = None
  /\ level self = Some "image".
Proof.
  intros HP HL HR HI HRm HIc.
  apply segment_inv in HP, HL, HR, HI.
  destruct HP as (HPn & HPs & HPe), HL as (HLn & HLs & HLe),
    HR as (HRn & HRs & HRe), HI as (HIn & HIs & HIe).
  intros self. subst self. unfold locate.
  change ("projects/" ++ P ++ "/locations/" ++ L ++ "/repositories/" ++ R
            ++ "/packages/" ++ I)
    with (join "/" ["projects"; P; "locations"; L; "repositories"; R;
                    "packages"; I]).
  rewrite qualified_join; try congruence; try reflexivity.
  - cbn [slice_1_2 skipn nth_error].
    destruct (assigned_image env R I (Some P) (Some L) HRs HRm HIs HIc)
      as (A1 & A2 & A3 & A4).
    repeat split; try assumption.
    + rewrite assigned_project. apply or_first, truthy_nonempty, HPn.
    + apply assigned_level_value. unfold _get_level.
      rewrite A2, A3, A4. change (truthy None) with false. cbn [orb].
      now rewrite (truthy_nonempty I HIn).
  - cbn [forallb]. now rewrite HPs, HLs, HRs, HIs.
  - cbn [slice_1_2 existsb]. now rewrite HPe, HLe, HRe, HIe.
  - cbn [slice_1_2]. congruence.
Qed.

Lemma plain_segment (s : string) : plain s = true -> segment s = true.
Proof. unfold plain. intros H. apply andb_true_iff in H. apply H. Qed.

(** [C4] (amended) Round trip through the full resource name: for every
    locator that is readable (no tag; project, location, repository, and
    image and version where set, non-empty and free of [/], [:] and [%2F];
    no version without an image) and whose level is the level of its
    attributes, constructing a new ArtifactRegistry from its unshortened
    canonical path [_get_path(shorten=False)] with the default keyword
    arguments yields equal project, location, repository, image, version,
    tag and level. *)
Theorem full_path_round_trip (env : Env) (self : Self) :
  readable self = true ->
  level self = _get_level self ->
  exists self',
    ArtifactRegistry env (_get_path false self) defaults = inr self'
    /\ project self' = project self /\ location self' = location self
    /\ repository self' = repository self /\ image self' = image self
    /\ version self' = version self /\ tag self' = tag self
    /\ level self' = level self.
Proof.
  destruct self as [[P|] [L|] [R|] im [t|] ver lv pa]; unfold readable; fields;
    try discriminate.
  intros Hr Hlv. unfold _get_level in Hlv.
  cbn [project location repository image tag version level path] in Hlv.
  change (truthy None) with false in Hlv. cbn [orb] in Hlv.
  apply andb_true_iff in Hr. destruct Hr as [Hr Hiv].
  apply andb_true_iff in Hr. destruct Hr as [Hr HR].
  apply andb_true_iff in Hr. destruct Hr as [HP HL].
  pose proof (plain_inv _ HR) as (HRn & _ & _ & _ & HRm).
  rewrite init_run. eexists. split; [reflexivity|].
  unfold _get_path, level_is; fields.
  destruct im as [I|], ver as [V|]; try discriminate.
  - (* image and version *)
    apply andb_true_iff in Hiv. destruct Hiv as [HI HV].
    pose proof (plain_inv _ HI) as (HIn & _ & _ & HIc & _).
    pose proof (plain_inv _ HV) as (HVn & _ & _ & HVc & _).
    rewrite (truthy_nonempty V HVn) in Hlv. subst lv.
    rewrite (truthy_nonempty V HVn). cbn -[locate append].
    apply (locate_version env P L R I V); auto using plain_segment.
  - (* image alone *)
    pose proof (plain_inv _ Hiv) as (HIn & _ & _ & HIc & _).
    rewrite (truthy_nonempty I HIn) in Hlv. subst lv. cbn -[locate append].
    apply (locate_image env P L R I); auto using plain_segment.
  - (* repository alone *)
    change (truthy None) with false in Hlv. cbv iota in Hlv.
    rewrite (truthy_nonempty R HRn) in Hlv. subst lv. cbn -[locate append].
    apply (locate_repository env P L R); auto using plain_segment.
Qed.

Lemma full_path_round_trip_witness :
  exists self',
    ArtifactRegistry env0
      (_get_path false
         (mkSelf (Some "p1") (Some "us") (Some "r1") (Some "img1") None
            (Some "abc123") (Some "digest") "p1/us/r1/img1/sha256:abc123"))
      defaults = inr self'
    /\ project self' = Some "p1" /\ location self' = Some "us"
    /\ repository self' = Some "r1" /\ image self' = Some "img1"
    /\ version self' = Some "abc123" /\ tag self' = None
    /\ level self' = Some "digest".
Proof.
  apply (full_path_round_trip env0
           (mkSelf (Some "p1") (Some "us") (Some "r1") (Some "img1") None
              (Some "abc123") (Some "digest") "p1/us/r1/img1/sha256:abc123"));
    reflexivity.
Defined.

(** [C4] The claim as stated fails: the stored path is the shortened one,
    [project/location/repository/...], and read as a path its first segment
    becomes the repository.  The full name of a tagged image does not read
    back either: the tag comes back as a segment that is left out. *)
Lemma stored_path_no_round_trip :
  (exists self self',
      ArtifactRegistry env0 "r1/img1" defaults = inr self
      /\ path self = "proj/europe-west2/r1/img1"
      /\ ArtifactRegistry env0 (path self) defaults = inr self'
      /\ repository self = Some "r1" /\ repository self' = Some "proj"
      /\ repository self' <> repository self)
  /\ (exists self self',
      ArtifactRegistry env0 "r1/img1:latest" defaults = inr self
      /\ ArtifactRegistry env0 (_get_path false self) defaults = inr self'
      /\ tag self = Some "latest" /\ tag self' = None
      /\ level self = Some "digest" /\ level self' = Some "image").
Proof.
  split.
  - do 2 eexists. split; [vm_compute; reflexivity|].
    split; [reflexivity|]. split; [vm_compute; reflexivity|].
    split; [reflexivity|]. split; [reflexivity | discriminate].
  - do 2 eexists. split; [vm_compute; reflexivity|].
    split; [vm_compute; reflexivity|]. repeat split.
Qed.

(** [C5] For every path and every combination of keyword arguments the
    constructor completes, and in the object it builds a truthy tag comes
    with the version [None], wherever tag and version came from. *)
Theorem tag_excludes_version (env : Env) (pth : string) (kw : Kwargs) :
  exists self,
    ArtifactRegistry env pth kw = inr self
    /\ (truthy (tag self) = true -> version self = None).
Proof.
  rewrite init_run. eexists. split; [reflexivity|].
  unfold locate. destruct (qualified _ _ _) as [[pth' proj] loc].
  unfold assigned, derive. fields. now intros ->.
Qed.

Lemma tag_excludes_version_witness :
  exists self,
    ArtifactRegistry env0 "r1/img1:latest/sha256:abc"
      (mkKwargs None (Some "us") None None (Some "v") None) = inr self
    /\ (truthy (tag self) = true -> version self = None).
Proof.
  exact (tag_excludes_version env0 "r1/img1:latest/sha256:abc"
           (mkKwargs None (Some "us") None None (Some "v") None)).
Defined.

(** [C6] [_get_level] returns the most specific applicable level in the
    order digest, image, repository, location, project, and [None] when no
    level applies: ["digest"] iff tag or version is set, otherwise ["image"]
    iff the image is set, otherwise ["repository"] iff the repository is set,
    otherwise ["location"] iff the location is set, otherwise ["project"] iff
    the project is set, otherwise [None]. *)
Theorem get_level_most_specific (self : Self) :
  _get_level self = most_specific_level self
  /\ (_get_level self = Some "digest"
      <-> truthy (tag self) || truthy (version self) = true)
  /\ (truthy (tag self) || truthy (version self) = false ->
      (_get_level self = Some "image" <-> truthy (image self) = true)
      /\ (truthy (image self) = false ->
          (_get_level self = Some "repository" <-> truthy (repository self) = true)
          /\ (truthy (repository self) = false ->
              (_get_level self = Some "location" <-> truthy (location self) = true)
              /\ (truthy (location self) = false ->
                  (_get_level self = Some "project" <-> truthy (project self) = true)
                  /\ (truthy (project self) = false -> _get_level self = None))))).
Proof.
  unfold most_specific_level, levels_by_priority, applicable, _get_level.
  cbn [find String.eqb Ascii.eqb Bool.eqb].
  destruct (truthy (tag self) || truthy (version self));
    [repeat split; intros; congruence|].
  destruct (truthy (image self)); [repeat split; intros; congruence|].
  destruct (truthy (repository self)); [repeat split; intros; congruence|].
  destruct (truthy (location self)); [repeat split; intros; congruence|].
  destruct (truthy (project self)); repeat split; intros; congruence.
Qed.

Lemma get_level_most_specific_witness :
  _get_level (mkSelf (Some "p") (Some "l") (Some "r") None None None None "")
  = most_specific_level (mkSelf (Some "p") (Some "l") (Some "r") None None None None "")
  /\ _get_level (mkSelf (Some "p") (Some "l") (Some "r") None None None None "")
     = Some "repository".
Proof.
  pose proof (get_level_most_specific
                (mkSelf (Some "p") (Some "l") (Some "r") None None None None ""))
    as (H1 & _ & H3).
  split; [exact H1|].
  destruct (H3 eq_refl) as (_ & H4). destruct (H4 eq_refl) as (H5 & _).
  apply H5. reflexivity.
Defined.

Lemma no_slash_shorthand (pth : string) :
  contains "/" pth = false -> startswith pth "projects/" = false.
Proof.
  intros H. destruct (startswith pth "projects/") eqn:E; [|reflexivity].
  change "projects/" with ("projects" ++ String "/" "") in E.
  apply startswith_last in E. congruence.
Qed.

(** [C8] For every string given as path, every environment and every
    combination of keyword arguments, the parsing ends without an exception
    and builds an object.  Components that the path lacks leave attributes
    unset: a path with no [/] leaves the image [None] and the tag that of the
    keywords, and a shorthand path with no [sha256:] leaves the version
    [None] or that of the keywords. *)
Theorem parsing_never_raises (env : Env) (pth : string) (kw : Kwargs) :
  exists self,
    ArtifactRegistry env pth kw = inr self
    /\ (contains "/" pth = false ->
        image self = None /\ tag self = kw_tag kw)
    /\ (startswith pth "projects/" = false -> contains "sha256:" pth = false ->
        version self = None \/ version self = kw_version kw).
Proof.
  rewrite init_run. eexists. split; [reflexivity|]. split.
  - intros H. rewrite locate_shorthand by now apply no_slash_shorthand.
    unfold assigned, derive. fields.
    rewrite (image_of_split pth pth [] _ (split_absent "/" pth H)).
    split; reflexivity.
  - intros Hst H. rewrite locate_shorthand by assumption.
    unfold assigned, derive. fields. rewrite (version_of_absent _ _ H).
    destruct (truthy _); auto.
Qed.

Lemma parsing_never_raises_witness :
  exists self,
    ArtifactRegistry env0 "" defaults = inr self
    /\ (contains "/" "" = false -> image self = None /\ tag self = kw_tag defaults)
    /\ (startswith "" "projects/" = false -> contains "sha256:" "" = false ->
        version self = None \/ version self = kw_version defaults).
Proof. exact (parsing_never_raises env0 "" defaults). Defined.

Section ListingFacts.

Variable answer : listing -> Self -> exn + list string.

(** [C9] At level ["project"], [ls] raises the ValueError "Cannot list items
    at the project level." and calls no listing method; at the levels
    ["location"], ["repository"] and ["image"] it calls exactly one listing
    method, [ls_repositories], [ls_images] and [ls_versions] respectively,
    and ends as that method ends. *)
Theorem ls_by_level (self : Self) :
  (level self = Some "project" ->
   ls answer self
   = mkOutcome [] (inl (ValueError "Cannot list items at the project level.")))
  /\ (level self = Some "location" ->
      called (ls answer self) = [ls_repositories]
      /\ ls answer self = delegate answer ls_repositories self)
  /\ (level self = Some "repository" ->
      called (ls answer self) = [ls_images]
      /\ ls answer self = delegate answer ls_images self)
  /\ (level self = Some "image" ->
      called (ls answer self) = [ls_versions]
      /\ ls answer self = delegate answer ls_versions self).
Proof.
  unfold ls, level_is.
  split; [|split; [|split]]; intros H; rewrite H; try split; reflexivity.
Qed.

(** [C10] At level ["digest"], and when the level is [None], [ls] returns
    [None]: it raises nothing and calls no listing method. *)
Theorem ls_falls_through (self : Self) :
  level self = Some "digest" \/ level self = None ->
  ls answer self = mkOutcome [] (inr None).
Proof.
  unfold ls, level_is. intros [H|H]; rewrite H; reflexivity.
Qed.

End ListingFacts.

Lemma ls_by_level_witness :
  (exists self,
      ArtifactRegistry env0 "projects/p1" defaults = inr self
      /\ level self = Some "project"
      /\ ls (fun _ _ => inr []) self
         = mkOutcome [] (inl (ValueError "Cannot list items at the project level.")))
  /\ (exists self,
      ArtifactRegistry env0 "r1" defaults = inr self
      /\ level self = Some "repository"
      /\ called (ls (fun _ _ => inr []) self) = [ls_images]).
Proof.
  split.
  - eexists. split; [vm_compute; reflexivity|]. split; [reflexivity|].
    apply (proj1 (ls_by_level (fun _ _ => inr []) _)). reflexivity.
  - eexists. split; [vm_compute; reflexivity|]. split; [reflexivity|].
    apply (proj1 (proj2 (proj2 (ls_by_level (fun _ _ => inr []) _)))).
    reflexivity.
Defined.

Lemma ls_falls_through_witness :
  exists self,
    ArtifactRegistry env0 "r1/img1:latest" defaults = inr self
    /\ level self = Some "digest"
    /\ ls (fun _ _ => inr []) self = mkOutcome [] (inr None).
Proof.
  eexists. split; [vm_compute; reflexivity|]. split; [reflexivity|].
  apply (ls_falls_through (fun _ _ => inr []) _). left. reflexivity.
Defined.

(** [C3] The constructor at [path=""], [repository="repo"], [image="img"]:
    the keywords do not reach the object, whose repository is the empty
    string and whose image is [None], at level location.  And so for every
    environment and every combination of keywords with the empty path: the
    first piece of [path.split("/")] always exists, so the [except
    IndexError] of the repository never runs, and an empty tail sets the
    image to [None]; the tag, and the version without a truthy tag, which are
    read by the blocks next to these, keep their keywords. *)
Theorem keyword_repository_overwritten :
  (exists self,
      ArtifactRegistry env0 ""
        (mkKwargs None (Some "europe-west2") (Some "repo") (Some "img") None None)
      = inr self
      /\ repository self = Some "" /\ image self = None
      /\ level self = Some "location"
      /\ repository self <> Some "repo" /\ image self <> Some "img")
  /\ (forall (env : Env) (kw : Kwargs),
      exists self,
        ArtifactRegistry env "" kw = inr self
        /\ repository self = Some "" /\ image self = None
        /\ tag self = kw_tag kw
        /\ version self = if truthy (kw_tag kw) then None else kw_version kw).
Proof.
  split.
  - eexists. split; [vm_compute; reflexivity|].
    split; [reflexivity|]. split; [reflexivity|]. split; [reflexivity|].
    split; discriminate.
  - intros env kw. rewrite init_run. eexists. split; [reflexivity|].
    repeat split.
Qed.

(** ** The object after construction *)

Lemma split_pieces (c : ascii) (s : string) :
  Forall (fun p => contains (String c "") p = false) (split s (String c "")).
Proof.
  induction s as [|a s IH]; [repeat constructor|].
  unfold split in *. cbn [split_from startswith String.length Nat.sub].
  rewrite andb_true_r. destruct (Ascii.eqb a c) eqn:E.
  - constructor; [reflexivity | exact IH].
  - destruct (split_from (String c "") 0 s) as [|h t];
      [repeat constructor; cbn; now rewrite E|].
    inversion IH as [|? ? Hh Ht]; subst. constructor; [|exact Ht].
    cbn [contains startswith]. now rewrite E, Hh.
Qed.

Lemma locate_level env pth kw :
  level (locate env pth kw) = _get_level (locate env pth kw).
Proof.
  unfold locate. destruct (qualified _ _ _) as [[p proj] loc]. reflexivity.
Qed.

Lemma locate_path env pth kw :
  path (locate env pth kw) = _get_path true (locate env pth kw).
Proof.
  unfold locate. destruct (qualified _ _ _) as [[p proj] loc]. reflexivity.
Qed.

(** [X1] The object the constructor builds stores the level and the path of
    the attributes it ends with: [level] is what [_get_level()] gives on the
    finished object and [path] what [_get_path()] gives, also after the tag
    has cleared the version. *)
Theorem constructed_level_and_path (env : Env) (pth : string) (kw : Kwargs) :
  exists self,
    ArtifactRegistry env pth kw = inr self
    /\ level self = _get_level self
    /\ path self = _get_path true self.
Proof.
  rewrite init_run. eexists. split; [reflexivity|].
  split; [apply locate_level | apply locate_path].
Qed.

(** [X2] Whatever the path and the keyword arguments, the repository of the
    object built is a string (never [None]) that holds no [/]; for a path that
    is not a full resource name it is the part of the path before its first
    [/], so that the [repository] keyword never reaches the object. *)
Theorem constructed_repository (env : Env) (pth : string) (kw : Kwargs) :
  exists self r,
    ArtifactRegistry env pth kw = inr self
    /\ repository self = Some r
    /\ contains "/" r = false
    /\ (startswith pth "projects/" = false ->
        pth = r \/ exists x, pth = r ++ "/" ++ x).
Proof.
  rewrite init_run.
  assert (G : forall p proj loc,
             exists r, repository (assigned env p proj loc kw) = Some r
                       /\ contains "/" r = false
                       /\ (p = r \/ exists x, p = r ++ "/" ++ x)).
  { intros p proj loc.
    pose proof (split_pieces "/" p) as F.
    pose proof (join_split "/" p) as J.
    pose proof (split_from_nonempty "/" 0 p) as N. fold (split p "/") in N.
    destruct (split p "/") as [|h t] eqn:E; [congruence|].
    inversion F as [|? ? Hh Ht]. exists h. split; [|split; [assumption|]].
    - unfold assigned, derive. fields. now rewrite E.
    - destruct t as [|y t]; [left; now rewrite <- J|].
      right. exists (join "/" (y :: t)). now rewrite <- J. }
  unfold locate, qualified. destruct (startswith pth "projects/").
  - cbv zeta. match goal with |- context [assigned env ?p ?a ?b kw] =>
      destruct (G p a b) as (r & G1 & G2 & _) end.
    eexists. exists r. split; [reflexivity|].
    split; [exact G1|]. split; [exact G2 | discriminate].
  - destruct (G pth (kw_project kw) (kw_location kw)) as (r & G1 & G2 & G3).
    eexists. exists r. split; [reflexivity|].
    split; [exact G1|]. split; [exact G2 | intros _; exact G3].
Qed.

Lemma constructed_level_and_path_aux env pth kw :
  exists self,
    ArtifactRegistry env pth kw = inr self /\ level self = _get_level self.
Proof.
  rewrite init_run. eexists. split; [reflexivity | apply locate_level].
Qed.

(** ** Requests and canonical names *)

Lemma or_none (v : option string) : or_ None v = v.
Proof. reflexivity. Qed.

Lemma fst_call_bind {A B} (m : Call A) (f : A -> Call B) :
  fst (call_bind m f)
  = List.app (fst m)
      match snd m with
      | inr a => fst (f a)
      | inl _ => []
      end.
Proof.
  destruct m as [sent [e|a]]; cbn; [now rewrite app_nil_r|].
  now destruct (f a).
Qed.

(** The last piece of a name cut at [/]: what follows its last [/]. *)
Lemma item_last_split (n : string) :
  exists e,
    item_last (split n "/") = call_ret e
    /\ contains "/" e = false
    /\ (n = e \/ exists p, n = p ++ "/" ++ e).
Proof.
  pose proof (split_pieces "/" n) as F.
  pose proof (join_split "/" n) as J.
  pose proof (split_from_nonempty "/" 0 n) as N. fold (split n "/") in N.
  destruct (exists_last N) as (l & e & E). rewrite E in *.
  exists e. split; [|split].
  - unfold item_last. now rewrite rev_unit.
  - apply Forall_app in F. destruct F as [_ F]. now inversion F.
  - destruct l as [|x l]; [left; now rewrite <- J|].
    right. exists (join "/" (x :: l)).
    rewrite <- J. apply join_snoc. discriminate.
Qed.

Lemma short_names (names : list string) :
  exists entries,
    comprehension (fun repository => item_last (split repository "/")) names
    = ([], inr entries)
    /\ Forall2
         (fun n e =>
            contains "/" e = false /\ (n = e \/ exists p, n = p ++ "/" ++ e))
         names entries.
Proof.
  induction names as [|n names (entries & IH & F)].
  - exists []. split; [reflexivity | constructor].
  - destruct (item_last_split n) as (e & E & He).
    exists (e :: entries). split; [|now constructor].
    cbn [comprehension]. rewrite E, IH. reflexivity.
Qed.

Section Requests.

Variable Resource : Type.
Variable client : Client Resource.

(** The name [get] passes to the client is the unshortened canonical path. *)
Lemma get_names (self : Self) :
  level self = _get_level self ->
  location self <> None ->
  (level self = Some "repository" ->
   Methods.get Resource client self
   = call_bind
       (send (GetRepository (_get_path false self))
          (client_get_repository client (_get_path false self)))
       (fun r => call_ret (Some r)))
  /\ (level self = Some "image" ->
      Methods.get Resource client self
      = call_bind
          (send (GetPackage (_get_path false self))
             (client_get_package client (_get_path false self)))
          (fun r => call_ret (Some r)))
  /\ (level self = Some "digest" -> truthy (tag self) = false ->
      Methods.get Resource client self
      = call_bind
          (send (GetVersion (_get_path false self))
             (client_get_version client (_get_path false self)))
          (fun r => call_ret (Some r)))
  /\ (level self = Some "digest" -> truthy (tag self) = true ->
      exists rest,
        fst (Methods.get Resource client self)
        = GetTag (_get_path false self) :: rest).
Proof.
  intros Hlv Hloc. destruct self as [p [l|] r i t v lv pa];
    cbn [location] in Hloc; [clear Hloc | congruence].
  unfold _get_level in Hlv.
  cbn [project location repository image tag version level path] in Hlv.
  unfold Methods.get, Methods.get_repository, Methods.get_image,
    Methods.get_version, Methods.get_tag, Methods.get_version_from_tag,
    _get_path, _get_parent, level_is, self_repository, self_image, self_tag,
    self_version, self_location; fields.
  rewrite !or_none. cbn [fmt].
  split; [|split; [|split]].
  - intros E. rewrite E. cbn [String.eqb Ascii.eqb Bool.eqb andb].
    now rewrite !append_assoc.
  - intros E. rewrite E. cbn [String.eqb Ascii.eqb Bool.eqb andb].
    now rewrite !append_assoc.
  - intros E Ht. rewrite E in *. cbn [String.eqb Ascii.eqb Bool.eqb andb].
    rewrite Ht in *. cbn [orb] in Hlv.
    destruct (truthy v); [now rewrite !append_assoc|].
    destruct (truthy i), (truthy r), (truthy (Some l)), (truthy p); discriminate.
  - intros E Ht. rewrite E. cbn [String.eqb Ascii.eqb Bool.eqb andb].
    rewrite Ht. rewrite !append_assoc. cbn [append].
    unfold call_bind, send.
    destruct (client_get_tag client _) as [e|[ver|]]; cbn; eauto.
    destruct (client_get_version client _); cbn; eauto.
Qed.

(** The name [ls] passes to the client is the unshortened canonical path. *)
Lemma ls_names (self : Self) :
  level self = _get_level self ->
  location self <> None ->
  (level self = Some "location" ->
   fst (Methods.ls Resource client self)
   = [ListRepositories (_get_path false self)])
  /\ (level self = Some "repository" ->
      fst (Methods.ls Resource client self)
      = [ListPackages (_get_path false self)])
  /\ (level self = Some "image" ->
      fst (Methods.ls Resource client self)
      = [ListVersions (_get_path false self)]).
Proof.
  intros _ Hloc. destruct self as [p [l|] r i t v lv pa];
    cbn [location] in Hloc; [clear Hloc | congruence].
  unfold Methods.ls, Methods.ls_repositories, Methods.ls_images,
    Methods.ls_versions, _get_path, _get_parent, level_is, self_repository,
    self_image, self_tag; fields.
  rewrite !or_none. cbn [fmt].
  split; [|split]; intros E; rewrite E;
    cbn [String.eqb Ascii.eqb Bool.eqb andb]; rewrite ?append_assoc;
    unfold call_bind at 1 2; unfold send; cbn [negb].
  - destruct (client_list_repositories client _) as [e|names]; [reflexivity|].
    destruct (short_names names) as (entries & -> & _). reflexivity.
  - destruct (client_list_packages client _); reflexivity.
  - destruct (client_list_versions client _); reflexivity.
Qed.

End Requests.

(** The levels the constructor can store. *)
Lemma get_level_cases (self : Self) :
  _get_level self = Some "digest" \/ _get_level self = Some "image"
  \/ _get_level self = Some "repository" \/ _get_level self = Some "location"
  \/ _get_level self = Some "project" \/ _get_level self = None.
Proof.
  unfold _get_level.
  destruct (_ || _); [auto|]. destruct (truthy (image self)); [auto|].
  destruct (truthy (repository self)); [auto|].
  destruct (truthy (location self)); [auto|].
  destruct (truthy (project self)); auto 10.
Qed.

Lemma get_level_digest (self : Self) :
  _get_level self = Some "digest" ->
  truthy (tag self) = true \/ truthy (version self) = true.
Proof.
  unfold _get_level. destruct (truthy (tag self)); [auto|].
  destruct (truthy (version self)); [auto|]. cbn [orb].
  destruct (truthy (image self)), (truthy (repository self)),
    (truthy (location self)), (truthy (project self)); discriminate.
Qed.

Section Constructed.

Variable Resource : Type.
Variable client : Client Resource.


End Constructed.

Lemma canonical_of_fields (self : Self) (P L R : string) :
  project self = Some P -> location self = Some L ->
  repository self = Some R ->
  (level self = Some "repository" ->
   _get_path false self
   = "projects/" ++ P ++ "/locations/" ++ L ++ "/repositories/" ++ R)
  /\ (forall I,
      image self = Some I -> level self = Some "image" ->
      _get_path false self
      = "projects/" ++ P ++ "/locations/" ++ L ++ "/repositories/" ++ R
          ++ "/packages/" ++ I)
  /\ (forall I V,
      image self = Some I -> version self = Some V ->
      truthy (tag self) = false -> V <> "" ->
      level self = Some "digest" ->
      _get_path false self = qualified_version P L R I V).
Proof.
  intros HP HL HR. unfold _get_path, level_is, qualified_version.
  rewrite HP, HL, HR. cbn [fmt].
  split; [|split].
  - intros ->. reflexivity.
  - intros I HI ->. rewrite HI. reflexivity.
  - intros I V HI HV Ht HVn ->. rewrite HI, HV, Ht, (truthy_nonempty V HVn).
    reflexivity.
Qed.

Section FullNames.

Variable Resource : Type.
Variable client : Client Resource.

(** [X4] [ls()] on the object the constructor builds, level by level.  The
    level is one of digest, image, repository, location, project and [None].
    At level project [ls()] sends nothing and raises the ValueError "Cannot
    list items at the project level."; at level digest and when the level is
    [None] it sends nothing and returns [None].  When the location is not
    [None], it sends exactly one request, on the unshortened canonical path
    of the object: [list_repositories] at level location, [list_packages] at
    level repository, [list_versions] at level image. *)
Theorem ls_requests_canonical_path (env : Env) (pth : string) (kw : Kwargs) :
  exists self,
    ArtifactRegistry env pth kw = inr self
    /\ (level self = Some "digest" \/ level self = Some "image"
        \/ level self = Some "repository" \/ level self = Some "location"
        \/ level self = Some "project" \/ level self = None)
    /\ (level self = Some "project" ->
        Methods.ls Resource client self
        = ([], inl (Raised (ValueError "Cannot list items at the project level."))))
    /\ (level self = Some "digest" \/ level self = None ->
        Methods.ls Resource client self = ([], inr None))
    /\ (location self <> None ->
        (level self = Some "location" ->
         fst (Methods.ls Resource client self)
         = [ListRepositories (_get_path false self)])
        /\ (level self = Some "repository" ->
            fst (Methods.ls Resource client self)
            = [ListPackages (_get_path false self)])
        /\ (level self = Some "image" ->
            fst (Methods.ls Resource client self)
            = [ListVersions (_get_path false self)])).
Proof.
  destruct (constructed_level_and_path_aux env pth kw) as (self & E & Hlv).
  exists self. split; [exact E|]. split; [|split; [|split]].
  - rewrite Hlv. apply get_level_cases.
  - unfold Methods.ls, level_is. intros H. now rewrite H.
  - unfold Methods.ls, level_is. intros [H|H]; now rewrite H.
  - intros Hloc. exact (ls_names Resource client self Hlv Hloc).
Qed.

(** [X5] Given the full resource name of a repository, of an image or of a
    version (segments not empty and free of [/] and [%2F], no [sha256:] in
    the repository, no [:] in image and version) and the default keyword
    arguments, the constructor builds an object on which [get()] sends one
    request, for exactly the name that was given. *)
Theorem get_full_name (env : Env) (P L R : string) :
  segment P = true -> segment L = true -> segment R = true ->
  contains "sha256:" R = false ->
  (exists self,
      ArtifactRegistry env
        ("projects/" ++ P ++ "/locations/" ++ L ++ "/repositories/" ++ R)
        defaults = inr self
      /\ fst (Methods.get Resource client self)
         = [GetRepository
              ("projects/" ++ P ++ "/locations/" ++ L ++ "/repositories/" ++ R)])
  /\ (forall I,
      segment I = true -> contains ":" I = false ->
      exists self,
        ArtifactRegistry env
          ("projects/" ++ P ++ "/locations/" ++ L ++ "/repositories/" ++ R
             ++ "/packages/" ++ I) defaults = inr self
        /\ fst (Methods.get Resource client self)
           = [GetPackage
                ("projects/" ++ P ++ "/locations/" ++ L ++ "/repositories/" ++ R
                   ++ "/packages/" ++ I)])
  /\ (forall I V,
      segment I = true -> segment V = true ->
      contains ":" I = false -> contains ":" V = false ->
      exists self,
        ArtifactRegistry env (qualified_version P L R I V) defaults = inr self
        /\ fst (Methods.get Resource client self)
           = [GetVersion (qualified_version P L R I V)]).
Proof.
  intros HP HL HR HRm. split; [|split].
  - rewrite init_run. eexists. split; [reflexivity|].
    destruct (locate_repository env P L R HP HL HR HRm)
      as (A1 & A2 & A3 & A4 & A5 & A6 & A7).
    set (self := locate env _ defaults) in *.
    destruct (canonical_of_fields self P L R A1 A2 A3) as (C1 & _).
    destruct (get_names Resource client self) as (G1 & _).
    { subst self. apply locate_level. }
    { rewrite A2. discriminate. }
    rewrite (G1 A7), fst_call_bind, (C1 A7). unfold send. cbn [fst snd].
    clear G1. destruct (client_get_repository client _); reflexivity.
  - intros I HI HIc. rewrite init_run. eexists. split; [reflexivity|].
    destruct (locate_image env P L R I HP HL HR HI HRm HIc)
      as (A1 & A2 & A3 & A4 & A5 & A6 & A7).
    set (self := locate env _ defaults) in *.
    destruct (canonical_of_fields self P L R A1 A2 A3) as (_ & C2 & _).
    destruct (get_names Resource client self) as (_ & G2 & _).
    { subst self. apply locate_level. }
    { rewrite A2. discriminate. }
    rewrite (G2 A7), fst_call_bind, (C2 I A4 A7). unfold send. cbn [fst snd].
    clear G2. destruct (client_get_package client _); reflexivity.
  - intros I V HI HV HIc HVc. rewrite init_run. eexists. split; [reflexivity|].
    destruct (locate_version env P L R I V HP HL HR HI HV HRm HIc HVc)
      as (A1 & A2 & A3 & A4 & A5 & A6 & A7).
    set (self := locate env _ defaults) in *.
    assert (Ht : truthy (tag self) = false) by now rewrite A6.
    assert (HVn : V <> "") by now apply segment_inv in HV.
    destruct (canonical_of_fields self P L R A1 A2 A3) as (_ & _ & C3).
    destruct (get_names Resource client self) as (_ & _ & G3 & _).
    { subst self. apply locate_level. }
    { rewrite A2. discriminate. }
    rewrite (G3 A7 Ht), fst_call_bind, (C3 I V A4 A5 Ht HVn A7).
    unfold send. cbn [fst snd].
    clear G3. destruct (client_get_version client _); reflexivity.
Qed.

End FullNames.


Lemma ls_requests_canonical_path_witness :
  exists self,
    ArtifactRegistry env0 "r1/img1" defaults = inr self
    /\ level self = Some "image"
    /\ fst (Methods.ls unit client1 self)
       = [ListVersions
            "projects/proj/locations/europe-west2/repositories/r1/packages/img1"].
Proof.
  destruct (ls_requests_canonical_path unit client1 env0 "r1/img1" defaults)
    as (self & E & _ & _ & _ & H).
  exists self. split; [exact E|].
  assert (E' := E). vm_compute in E'. injection E' as <-.
  split; [reflexivity|].
  destruct (H ltac:(discriminate)) as (_ & _ & G).
  rewrite (G eq_refl). vm_compute. reflexivity.
Defined.

Lemma get_full_name_witness :
  exists self,
    ArtifactRegistry env0 (qualified_version "p1" "us" "r1" "img1" "abc123") defaults
    = inr self
    /\ fst (Methods.get unit client0 self)
       = [GetVersion (qualified_version "p1" "us" "r1" "img1" "abc123")].
Proof.
  apply (get_full_name unit client0 env0 "p1" "us" "r1"
           eq_refl eq_refl eq_refl eq_refl);
    reflexivity.
Defined.

Section Edges.

Variable Resource : Type.
Variable client : Client Resource.

(** [X6] A full name that is only [projects/P] (P not empty, free of [/]
    and [%2F]) leaves the location out on purpose: whatever the [location]
    keyword, the object has project P and location [None]; without a tag or
    version keyword it is at level project, its parent is the name given,
    and [ls()] raises the ValueError without sending a request. *)
Theorem project_name_drops_location (env : Env) (kw : Kwargs) (P : string) :
  segment P = true ->
  truthy (kw_tag kw) = false -> truthy (kw_version kw) = false ->
  exists self,
    ArtifactRegistry env ("projects/" ++ P) kw = inr self
    /\ project self = Some P /\ location self = None
    /\ level self = Some "project"
    /\ _get_parent self = "projects/" ++ P
    /\ Methods.ls Resource client self
       = ([], inl (Raised (ValueError "Cannot list items at the project level."))).
Proof.
  intros HP Ht Hv. apply segment_inv in HP. destruct HP as (HPn & HPs & HPe).
  rewrite init_run. eexists. split; [reflexivity|].
  unfold locate.
  change ("projects/" ++ P) with (join "/" ["projects"; P]).
  rewrite qualified_join.
  - cbn [slice_1_2 skipn nth_error]. change (join "/" []) with "".
    change (join "/" ["projects"; P]) with ("projects/" ++ P).
    assert (Hp : project (assigned env "" (Some P) None kw) = Some P)
      by (rewrite assigned_project; apply or_first, truthy_nonempty, HPn).
    assert (Hl : location (assigned env "" (Some P) None kw) = None)
      by reflexivity.
    assert (Hlv : level (assigned env "" (Some P) None kw) = Some "project").
    { assert (Htg : tag (assigned env "" (Some P) None kw) = kw_tag kw)
        by reflexivity.
      assert (Hvr : version (assigned env "" (Some P) None kw)
                    = if truthy (kw_tag kw) then None else kw_version kw)
        by reflexivity.
      assert (Him : image (assigned env "" (Some P) None kw) = None)
        by reflexivity.
      assert (Hrp : repository (assigned env "" (Some P) None kw) = Some "")
        by reflexivity.
      rewrite assigned_level. unfold _get_level.
      rewrite Hp, Hl, Htg, Hvr, Him, Hrp, Ht, Hv.
      now rewrite (truthy_nonempty P HPn). }
    split; [exact Hp|]. split; [exact Hl|]. split; [exact Hlv|]. split.
    + unfold _get_parent. rewrite Hl, Hp. reflexivity.
    + unfold Methods.ls, level_is. rewrite Hlv. reflexivity.
  - reflexivity.
  - cbn [forallb]. now rewrite HPs.
  - cbn [slice_1_2 existsb]. now rewrite HPe.
  - discriminate.
  - cbn [slice_1_2]. discriminate.
Qed.

(** [X7] [ls_repositories()] sends one request, on the parent of the object.
    With [full_id=False] it returns, for each name the SDK lists and in the
    same order, what follows the last [/] of the name (the whole name if it
    has none): an entry never holds a [/]; with [full_id=True] it returns the
    names as listed. *)
Theorem ls_repositories_short_names (self : Self) (names : list string) :
  client_list_repositories client (_get_parent self) = inr names ->
  (exists entries,
      Methods.ls_repositories Resource client self false
      = ([ListRepositories (_get_parent self)], inr entries)
      /\ Forall2
           (fun n e =>
              contains "/" e = false /\ (n = e \/ exists p, n = p ++ "/" ++ e))
           names entries)
  /\ Methods.ls_repositories Resource client self true
     = ([ListRepositories (_get_parent self)], inr names).
Proof.
  intros H. unfold Methods.ls_repositories, call_bind, send. rewrite H.
  cbn [negb]. split; [|reflexivity].
  destruct (short_names names) as (entries & E & F).
  exists entries. rewrite E. split; [reflexivity | exact F].
Qed.

End Edges.

Lemma project_name_drops_location_witness :
  exists self,
    ArtifactRegistry env0 ("projects/" ++ "p1") defaults = inr self
    /\ project self = Some "p1" /\ location self = None
    /\ level self = Some "project"
    /\ _get_parent self = "projects/" ++ "p1"
    /\ Methods.ls unit client0 self
       = ([], inl (Raised (ValueError "Cannot list items at the project level."))).
Proof.
  apply (project_name_drops_location unit client0 env0 defaults "p1"); reflexivity.
Defined.

Lemma ls_repositories_short_names_witness :
  exists self entries,
    ArtifactRegistry env0 "" defaults = inr self
    /\ Methods.ls_repositories unit client1 self false
       = ([ListRepositories (_get_parent self)], inr entries)
    /\ Forall2
         (fun n e =>
            contains "/" e = false /\ (n = e \/ exists p, n = p ++ "/" ++ e))
         ["projects/proj/locations/europe-west2/repositories/r1";
          "projects/proj/locations/europe-west2/repositories/r2"]
         entries
    /\ entries = ["r1"; "r2"].
Proof.
  exists (mkSelf (Some "proj") (Some "europe-west2") (Some "") None None None
            (Some "location") "proj/europe-west2").
  destruct (ls_repositories_short_names unit client1
              (mkSelf (Some "proj") (Some "europe-west2") (Some "") None None
                 None (Some "location") "proj/europe-west2")
              ["projects/proj/locations/europe-west2/repositories/r1";
               "projects/proj/locations/europe-west2/repositories/r2"]
              eq_refl)
    as ((entries & E & F) & _).
  exists entries. split; [vm_compute; reflexivity|].
  split; [exact E|]. split; [exact F|].
  assert (E' := E). vm_compute in E'. injection E' as <-. reflexivity.
Defined.

(** ** Listed names handed back to the constructor *)

Lemma replace_from_skip (old new x r : string) :
  replace_from old new (String.length x) (x ++ r) = replace_from old new 0 r.
Proof. induction x as [|a x IH]; simpl; [reflexivity | exact IH]. Qed.

(** A name that starts with the pattern loses it. *)
Lemma replace_prefix (old r : string) :
  old <> "" -> contains old r = false -> replace (old ++ r) old "" = r.
Proof.
  destruct old as [|c old]; [congruence|]. intros _ H.
  unfold replace. cbn [append replace_from].
  change (String c (old ++ r)) with (String c old ++ r).
  rewrite startswith_app.
  replace (String.length (String c old) - 1) with (String.length old)
    by (cbn [String.length]; lia).
  rewrite replace_from_skip. cbn [append].
  now apply replace_absent.
Qed.

Lemma atom_inv (s : string) :
  atom s = true ->
  s <> "" /\ contains "/" s = false /\ contains ":" s = false.
Proof.
  unfold atom. intros H.
  apply andb_true_iff in H. destruct H as [H H3].
  apply andb_true_iff in H. destruct H as [H1 H2].
  apply negb_true_iff in H1, H2, H3. apply String.eqb_neq in H1. auto.
Qed.

(** The attributes of the object built from the shorthand paths [R], [R/I]
    and [R/I/sha256:V]. *)
Lemma shorthand_repository_fields env kw (R : string) :
  R <> "" -> contains "/" R = false -> contains "sha256:" R = false ->
  truthy (kw_tag kw) = false -> truthy (kw_version kw) = false ->
  let self := locate env R kw in
  repository self = Some R /\ image self = None
  /\ level self = Some "repository"
  /\ _get_parent self = _get_parent (locate env "" kw).
Proof.
  intros HRn HRs HRm Ht Hv. intros self. subst self.
  rewrite !locate_shorthand by (reflexivity || now apply no_slash_shorthand).
  assert (Hsplit : split R "/" = [R]) by now apply split_absent.
  assert (A1 : repository (assigned env R (kw_project kw) (kw_location kw) kw) = Some R)
    by (unfold assigned, derive; fields; now rewrite Hsplit).
  assert (A2 : image (assigned env R (kw_project kw) (kw_location kw) kw) = None)
    by (unfold assigned, derive; fields;
        now rewrite (image_of_split _ _ _ _ Hsplit)).
  assert (A3 : tag (assigned env R (kw_project kw) (kw_location kw) kw) = kw_tag kw)
    by (unfold assigned, derive; fields;
        now rewrite (image_of_split _ _ _ _ Hsplit)).
  assert (A4 : version (assigned env R (kw_project kw) (kw_location kw) kw)
               = kw_version kw).
  { unfold assigned, derive; fields.
    rewrite (image_of_split _ _ _ _ Hsplit), (version_of_absent _ _ HRm).
    cbn [tag_of snd]. now rewrite Ht. }
  repeat split; try assumption.
  rewrite assigned_level. unfold _get_level.
  now rewrite A1, A2, A3, A4, Ht, Hv, (truthy_nonempty R HRn).
Qed.

Lemma shorthand_image_fields env kw (R I : string) :
  (R =? "projects") = false ->
  contains "/" R = false -> contains "sha256:" R = false ->
  atom I = true ->
  truthy (kw_tag kw) = false -> truthy (kw_version kw) = false ->
  let self := locate env (R ++ "/" ++ I) kw in
  repository self = Some R /\ image self = Some I
  /\ level self = Some "image"
  /\ _get_parent self = _get_parent (locate env "" kw).
Proof.
  intros HR HRs HRm HI Ht Hv. apply atom_inv in HI.
  destruct HI as (HIn & HIs & HIc). intros self. subst self.
  rewrite locate_shorthand by now apply shorthand_start.
  rewrite (locate_shorthand env "") by reflexivity.
  assert (Hsplit : split (R ++ "/" ++ I) "/" = [R; I]).
  { change (R ++ "/" ++ I) with (join "/" [R; I]).
    apply split_join; [congruence|]. cbn [forallb]. now rewrite HRs, HIs. }
  assert (Hm : contains "sha256:" (R ++ "/" ++ I) = false).
  { change (R ++ "/" ++ I) with (join "/" [R; I]).
    rewrite (contains_join "/" "sha256:") by (discriminate || reflexivity).
    cbn [existsb]. rewrite HRm.
    change "sha256:" with ("sha256" ++ String ":" "").
    now rewrite (contains_last "sha256" ":" I HIc). }
  set (self := assigned env (R ++ "/" ++ I) (kw_project kw) (kw_location kw) kw).
  assert (A1 : repository self = Some R)
    by (subst self; unfold assigned, derive; fields; now rewrite Hsplit).
  assert (A2 : image self = Some I)
    by (subst self; unfold assigned, derive; fields;
        now rewrite (image_of_split _ _ _ _ Hsplit), (tag_of_plain I _ HIc)).
  assert (A3 : tag self = kw_tag kw)
    by (subst self; unfold assigned, derive; fields;
        now rewrite (image_of_split _ _ _ _ Hsplit), (tag_of_plain I _ HIc)).
  assert (A4 : version self = kw_version kw).
  { subst self; unfold assigned, derive; fields.
    rewrite (image_of_split _ _ _ _ Hsplit), (tag_of_plain I _ HIc),
      (version_of_absent _ _ Hm).
    cbn [snd]. now rewrite Ht. }
  repeat split; try assumption.
  subst self. rewrite assigned_level. unfold _get_level.
  fold (assigned env (R ++ "/" ++ I) (kw_project kw) (kw_location kw) kw).
  now rewrite A2, A3, A4, Ht, Hv, (truthy_nonempty I HIn).
Qed.

Lemma shorthand_version_fields env kw (R I V : string) :
  (R =? "projects") = false ->
  contains "/" R = false -> contains "sha256:" R = false ->
  atom I = true -> atom V = true ->
  truthy (kw_tag kw) = false ->
  let self := locate env (R ++ "/" ++ I ++ "/" ++ "sha256:" ++ V) kw in
  repository self = Some R /\ image self = Some I
  /\ version self = Some V /\ truthy (tag self) = false
  /\ level self = Some "digest"
  /\ _get_parent self = _get_parent (locate env "" kw).
Proof.
  intros HR HRs HRm HI HV Ht. apply atom_inv in HI, HV.
  destruct HI as (HIn & HIs & HIc), HV as (HVn & HVs & HVc).
  intros self. subst self.
  rewrite locate_shorthand by now apply shorthand_start.
  rewrite (locate_shorthand env "") by reflexivity.
  pose proof (assigned_version env R [I] V (kw_project kw) (kw_location kw) kw)
    as A.
  cbn [List.app forallb existsb] in A. rewrite HRs, HIs, HIc in A.
  assert (HVm : contains "sha256:" V = false)
    by (change "sha256:" with ("sha256" ++ String ":" ""); now apply contains_last).
  specialize (A ltac:(congruence) eq_refl HRm eq_refl HVs HVm).
  cbv zeta in A. rewrite Ht in A. change (join "/" [I]) with I in A.
  change (join "/" [R; I; "sha256:" ++ V])
    with (R ++ "/" ++ I ++ "/" ++ "sha256:" ++ V) in A.
  destruct A as (A1 & A2 & A3 & A4).
  repeat split; try assumption.
  - now rewrite A3.
  - rewrite assigned_level. unfold _get_level.
    now rewrite A3, A4, Ht, (truthy_nonempty V HVn).
Qed.

Section RoundTrips.

Variable Resource : Type.
Variable client : Client Resource.

(** The request [get] sends, from the parent and the attributes. *)
Lemma get_by_parent (self : Self) :
  (level self = Some "repository" ->
   fst (Methods.get Resource client self)
   = [GetRepository
        (_get_parent self ++ "/repositories/" ++ fmt (repository self))])
  /\ (level self = Some "image" ->
      fst (Methods.get Resource client self)
      = [GetPackage
           (_get_parent self ++ "/repositories/" ++ fmt (repository self)
              ++ "/packages/" ++ fmt (image self))])
  /\ (level self = Some "digest" ->
      truthy (tag self) = false -> truthy (version self) = true ->
      fst (Methods.get Resource client self)
      = [GetVersion
           (_get_parent self ++ "/repositories/" ++ fmt (repository self)
              ++ "/packages/" ++ fmt (image self)
              ++ "/versions/sha256:" ++ fmt (version self))]).
Proof.
  unfold Methods.get, Methods.get_repository, Methods.get_image,
    Methods.get_version, level_is, self_repository, self_image, self_tag,
    self_version.
  rewrite !or_none.
  split; [|split].
  - intros ->. cbn [String.eqb Ascii.eqb Bool.eqb andb].
    rewrite fst_call_bind. unfold send. cbn [fst snd].
    destruct (client_get_repository client _); reflexivity.
  - intros ->. cbn [String.eqb Ascii.eqb Bool.eqb andb].
    rewrite fst_call_bind. unfold send. cbn [fst snd].
    destruct (client_get_package client _); reflexivity.
  - intros -> -> ->. cbn [String.eqb Ascii.eqb Bool.eqb andb].
    rewrite fst_call_bind. unfold send. cbn [fst snd].
    destruct (client_get_version client _); reflexivity.
Qed.

(** [X8] Listing the images of a repository and handing an entry back.  Let
    the object be built from the shorthand path [R] (R not empty, free of [/]
    and [sha256:], and not the word [projects]; no truthy tag or version
    keyword), and let the SDK list packages named
    [<parent>/repositories/R/packages/I], each I not empty and free of [/]
    and [:].  Then [ls()] sends one request, on [<parent>/repositories/R],
    and returns the entries [R/I] in the order listed; and an object built
    from any entry [R/I], with the same environment and keywords, makes
    [get()] send one request, for the very name the SDK listed. *)
Theorem ls_images_round_trip (env : Env) (kw : Kwargs) (R : string)
    (images : list string) :
  (R =? "") = false -> (R =? "projects") = false ->
  contains "/" R = false -> contains "sha256:" R = false ->
  truthy (kw_tag kw) = false -> truthy (kw_version kw) = false ->
  forallb atom images = true ->
  exists self,
    ArtifactRegistry env R kw = inr self
    /\ (client_list_packages client (_get_parent self ++ "/repositories/" ++ R)
        = inr (map (fun I => (_get_parent self ++ "/repositories/" ++ R)
                               ++ "/packages/" ++ I) images) ->
        Methods.ls Resource client self
        = ([ListPackages (_get_parent self ++ "/repositories/" ++ R)],
           inr (Some (map (fun I => R ++ "/" ++ I) images)))
        /\ Forall
             (fun I =>
                exists self',
                  ArtifactRegistry env (R ++ "/" ++ I) kw = inr self'
                  /\ fst (Methods.get Resource client self')
                     = [GetPackage
                          ((_get_parent self ++ "/repositories/" ++ R)
                             ++ "/packages/" ++ I)])
             images).
Proof.
  intros HRn HR HRs HRm Ht Hv Ha. apply String.eqb_neq in HRn.
  rewrite init_run. eexists. split; [reflexivity|].
  destruct (shorthand_repository_fields env kw R HRn HRs HRm Ht Hv)
    as (A1 & A2 & A3 & A4).
  set (self := locate env R kw) in *. intros Hc. split.
  - unfold Methods.ls, Methods.ls_images, level_is, self_repository.
    rewrite A3. cbn [String.eqb Ascii.eqb Bool.eqb andb].
    rewrite !or_none, A1. cbn [fmt]. unfold send. rewrite Hc.
    cbn [call_bind negb call_ret List.app]. rewrite !map_map.
    do 3 f_equal. apply map_ext_in. intros I HI. do 2 f_equal.
    rewrite <- append_assoc.
    apply replace_prefix.
    + destruct (_get_parent self); discriminate.
    + apply (proj1 (forallb_forall _ _) Ha) in HI. apply atom_inv in HI.
      rewrite <- append_assoc.
      change "/packages/" with ("/packages" ++ String "/" "").
      rewrite <- append_assoc. apply contains_last. apply HI.
  - apply Forall_forall. intros I HI.
    apply (proj1 (forallb_forall _ _) Ha) in HI.
    rewrite init_run. eexists. split; [reflexivity|].
    destruct (shorthand_image_fields env kw R I HR HRs HRm HI Ht Hv)
      as (B1 & B2 & B3 & B4).
    destruct (get_by_parent (locate env (R ++ "/" ++ I) kw)) as (_ & G & _).
    rewrite (G B3), B1, B2, B4, <- A4. cbn [fmt].
    now rewrite !append_assoc.
Qed.

End RoundTrips.

(** ** Versions, latest first *)

Lemma insert_desc_perm (x : string * Z) (l : list (string * Z)) :
  Permutation (insert_desc x l) (x :: l).
Proof.
  induction l as [|y t IH]; [reflexivity|]. cbn [insert_desc].
  destruct (snd x <? snd y)%Z; [|reflexivity].
  rewrite IH. apply perm_swap.
Qed.

Lemma sorted_desc_perm (l : list (string * Z)) : Permutation (sorted_desc l) l.
Proof.
  induction l as [|x l IH]; [reflexivity|].
  cbn [sorted_desc fold_right]. fold (sorted_desc l).
  rewrite insert_desc_perm. now constructor.
Qed.

Lemma insert_desc_sorted (x : string * Z) (l : list (string * Z)) :
  Sorted (fun a b => (snd b <= snd a)%Z) l ->
  Sorted (fun a b => (snd b <= snd a)%Z) (insert_desc x l).
Proof.
  induction l as [|y t IH]; intros H; [repeat constructor|].
  cbn [insert_desc]. destruct (Z.ltb_spec (snd x) (snd y)) as [Hlt|Hge].
  - inversion H as [|? ? Ht Hd]; subst. constructor; [now apply IH|].
    destruct t as [|z t]; cbn [insert_desc]; [constructor; lia|].
    destruct (Z.ltb_spec (snd x) (snd z)); constructor; [|lia].
    now inversion Hd.
  - constructor; [exact H | constructor; exact Hge].
Qed.

Lemma sorted_desc_sorted (l : list (string * Z)) :
  StronglySorted (fun a b => (snd b <= snd a)%Z) (sorted_desc l).
Proof.
  apply Sorted_StronglySorted; [intros a b c; lia|].
  induction l as [|x l IH]; [constructor|].
  cbn [sorted_desc fold_right]. now apply insert_desc_sorted.
Qed.

(** Renaming the entries does not change their order. *)
Lemma sorted_desc_map (g : string -> string) (l : list (string * Z)) :
  sorted_desc (map (fun vt => (g (fst vt), snd vt)) l)
  = map (fun vt => (g (fst vt), snd vt)) (sorted_desc l).
Proof.
  induction l as [|x l IH]; [reflexivity|].
  cbn [map sorted_desc fold_right]. fold (sorted_desc l).
  fold (sorted_desc (map (fun vt => (g (fst vt), snd vt)) l)). rewrite IH.
  generalize (sorted_desc l). clear. intros l.
  induction l as [|y t IH]; [reflexivity|].
  cbn [map insert_desc snd]. destruct (snd x <? snd y)%Z; [|reflexivity].
  now rewrite IH.
Qed.

Section Versions.

Variable Resource : Type.
Variable client : Client Resource.

(** [X9] [ls_versions(full_id=True)] sends one request, on the name of the
    image, and returns the names of the versions the SDK lists, every one of
    them once, ordered by creation time with the latest first. *)
Theorem ls_versions_latest_first (self : Self) (answer : list (string * Z)) :
  client_list_versions client
    (_get_parent self ++ "/repositories/" ++ fmt (repository self)
       ++ "/packages/" ++ fmt (image self)) = inr answer ->
  exists ordered,
    Methods.ls_versions Resource client self None None None true
    = ([ListVersions
          (_get_parent self ++ "/repositories/" ++ fmt (repository self)
             ++ "/packages/" ++ fmt (image self))],
       inr (map fst ordered))
    /\ Permutation ordered answer
    /\ StronglySorted (fun a b => (snd b <= snd a)%Z) ordered.
Proof.
  intros H. exists (sorted_desc answer). split; [|split].
  - unfold Methods.ls_versions, self_repository, self_image, self_tag, send.
    rewrite !or_none, H. reflexivity.
  - apply sorted_desc_perm.
  - apply sorted_desc_sorted.
Qed.

(** [X10] Listing the versions of an image and handing an entry back.  Let
    the object be built from the shorthand path [R/I] (R free of [/] and
    [sha256:] and not the word [projects]; I not empty and free of [/] and
    [:]; no truthy tag or version keyword), and let the SDK list versions
    named [<parent>/repositories/R/packages/I/versions/sha256:V], each V not
    empty and free of [/] and [:].  Then [ls()] sends one request, on the
    name of the image, and returns the entries [R/I/sha256:V], latest first;
    and an object built from any entry, with the same environment and
    keywords, makes [get()] send one request, for the very name the SDK
    listed. *)
Theorem ls_versions_round_trip (env : Env) (kw : Kwargs) (R I : string)
    (versions : list (string * Z)) :
  (R =? "projects") = false ->
  contains "/" R = false -> contains "sha256:" R = false ->
  atom I = true ->
  truthy (kw_tag kw) = false -> truthy (kw_version kw) = false ->
  forallb (fun vt => atom (fst vt)) versions = true ->
  exists self,
    ArtifactRegistry env (R ++ "/" ++ I) kw = inr self
    /\ (client_list_versions client
          (_get_parent self ++ "/repositories/" ++ R ++ "/packages/" ++ I)
        = inr (map (fun vt =>
                      ((_get_parent self ++ "/repositories/" ++ R
                          ++ "/packages/" ++ I)
                         ++ "/versions/sha256:" ++ fst vt, snd vt))
                 versions) ->
        Methods.ls Resource client self
        = ([ListVersions
              (_get_parent self ++ "/repositories/" ++ R ++ "/packages/" ++ I)],
           inr (Some (map (fun vt => R ++ "/" ++ I ++ "/sha256:" ++ fst vt)
                        (sorted_desc versions))))
        /\ Forall
             (fun vt =>
                exists self',
                  ArtifactRegistry env (R ++ "/" ++ I ++ "/sha256:" ++ fst vt) kw
                  = inr self'
                  /\ fst (Methods.get Resource client self')
                     = [GetVersion
                          ((_get_parent self ++ "/repositories/" ++ R
                              ++ "/packages/" ++ I)
                             ++ "/versions/sha256:" ++ fst vt)])
             versions).
Proof.
  intros HR HRs HRm HI Ht Hv Ha.
  rewrite init_run. eexists. split; [reflexivity|].
  destruct (shorthand_image_fields env kw R I HR HRs HRm HI Ht Hv)
    as (A1 & A2 & A3 & A4).
  set (self := locate env (R ++ "/" ++ I) kw) in *. intros Hc. split.
  - unfold Methods.ls, Methods.ls_versions, level_is, self_repository,
      self_image, self_tag.
    rewrite A3. cbn [String.eqb Ascii.eqb Bool.eqb andb].
    rewrite !or_none, A1, A2. cbn [fmt]. unfold send. rewrite Hc.
    cbn [call_bind negb call_ret List.app].
    rewrite (sorted_desc_map
               (fun V => (_get_parent self ++ "/repositories/" ++ R
                            ++ "/packages/" ++ I) ++ "/versions/sha256:" ++ V)).
    rewrite !map_map. cbn [fst].
    do 3 f_equal. apply map_ext_in. intros vt Hvt.
    apply (Permutation_in _ (sorted_desc_perm versions)) in Hvt.
    apply (proj1 (forallb_forall _ _) Ha) in Hvt. apply atom_inv in Hvt.
    destruct Hvt as (_ & HVs & _).
    set (image_name := _get_parent self ++ "/repositories/" ++ R
                         ++ "/packages/" ++ I).
    replace (image_name ++ "/versions/sha256:" ++ fst vt)
      with ((image_name ++ "/versions/") ++ "sha256:" ++ fst vt)
      by (now rewrite append_assoc).
    rewrite replace_prefix; [reflexivity | |].
    + destruct image_name; discriminate.
    + change "/versions/" with ("/versions" ++ String "/" "").
      rewrite <- append_assoc. apply contains_last.
      simpl. exact HVs.
  - apply Forall_forall. intros vt Hvt.
    apply (proj1 (forallb_forall _ _) Ha) in Hvt.
    rewrite init_run. eexists. split; [reflexivity|].
    destruct (shorthand_version_fields env kw R I (fst vt) HR HRs HRm HI Hvt Ht)
      as (B1 & B2 & B3 & B4 & B5 & B6).
    change (R ++ "/" ++ I ++ "/" ++ "sha256:" ++ fst vt)
      with (R ++ "/" ++ I ++ "/sha256:" ++ fst vt) in *.
    destruct (get_by_parent Resource client
                (locate env (R ++ "/" ++ I ++ "/sha256:" ++ fst vt) kw))
      as (_ & _ & G).
    apply atom_inv in Hvt. destruct Hvt as (HVn & _).
    rewrite (G B5 B4) by (rewrite B3; now apply truthy_nonempty).
    rewrite B1, B2, B3, B6, <- A4. cbn [fmt].
    now rewrite !append_assoc.
Qed.

End Versions.

(** ** Repositories and tags *)

Lemma split_last_piece (c : ascii) (x R : string) :
  contains (String c "") R = false ->
  exists h t, split (x ++ String c R) (String c "") = List.app (h :: t) [R].
Proof.
  intros HR. induction x as [|a x (h & t & IH)].
  - exists "", []. cbn [append]. change (String c R) with ("" ++ String c R).
    rewrite split_around by reflexivity. now rewrite (split_absent _ _ HR).
  - destruct (Ascii.eqb_spec a c) as [->|Hac].
    + exists "", (h :: t). cbn [append].
      change (String c (x ++ String c R)) with ("" ++ String c (x ++ String c R)).
      rewrite split_around by reflexivity. now rewrite IH.
    + exists (String a h), t. cbn [append]. rewrite split_cons.
      * now rewrite IH.
      * cbn [startswith]. apply Ascii.eqb_neq in Hac. now rewrite Hac.
Qed.

Lemma item_last_suffix (x R : string) :
  contains "/" R = false ->
  item_last (split (x ++ "/" ++ R) "/") = call_ret R.
Proof.
  intros HR. destruct (split_last_piece "/" x R HR) as (h & t & E).
  change (x ++ "/" ++ R) with (x ++ String "/" R). rewrite E.
  unfold item_last. now rewrite rev_unit.
Qed.

Section Repositories.

Variable Resource : Type.
Variable client : Client Resource.

(** [X11] Listing the repositories and handing an entry back.  Let the
    object be built from the empty path with a truthy location and no truthy
    tag or version keyword, and let the SDK list repositories named
    [<parent>/repositories/R], each R not empty and free of [/] and [:].
    Then [ls()] sends one request, on the parent, and returns the names R in
    the order listed; and an object built from any R as path, with the same
    environment and keywords, makes [get()] send one request, for the very
    name the SDK listed. *)
Theorem ls_repositories_round_trip (env : Env) (kw : Kwargs)
    (repos : list string) :
  truthy (kw_location kw) = true ->
  truthy (kw_tag kw) = false -> truthy (kw_version kw) = false ->
  forallb atom repos = true ->
  exists self,
    ArtifactRegistry env "" kw = inr self
    /\ (client_list_repositories client (_get_parent self)
        = inr (map (fun R => _get_parent self ++ "/repositories/" ++ R) repos) ->
        Methods.ls Resource client self
        = ([ListRepositories (_get_parent self)], inr (Some repos))
        /\ Forall
             (fun R =>
                exists self',
                  ArtifactRegistry env R kw = inr self'
                  /\ fst (Methods.get Resource client self')
                     = [GetRepository
                          (_get_parent self ++ "/repositories/" ++ R)])
             repos).
Proof.
  intros Hl Ht Hv Ha. rewrite init_run. eexists. split; [reflexivity|].
  set (self := locate env "" kw).
  assert (Hlv : level self = Some "location").
  { subst self. rewrite locate_level. unfold _get_level.
    rewrite (locate_shorthand env "") by reflexivity.
    change (tag (assigned env "" (kw_project kw) (kw_location kw) kw))
      with (kw_tag kw).
    change (version (assigned env "" (kw_project kw) (kw_location kw) kw))
      with (if truthy (kw_tag kw) then None else kw_version kw).
    change (image (assigned env "" (kw_project kw) (kw_location kw) kw))
      with (@None string).
    change (repository (assigned env "" (kw_project kw) (kw_location kw) kw))
      with (Some "").
    change (location (assigned env "" (kw_project kw) (kw_location kw) kw))
      with (kw_location kw).
    now rewrite Ht, Hv, Hl. }
  intros Hc. split.
  - unfold Methods.ls, Methods.ls_repositories, level_is.
    rewrite Hlv. cbn [String.eqb Ascii.eqb Bool.eqb andb].
    unfold send. rewrite Hc. cbn [call_bind negb].
    assert (E : comprehension
                  (fun repository => item_last (split repository "/"))
                  (map (fun R => _get_parent self ++ "/repositories/" ++ R) repos)
                = ([], inr repos)).
    { clear Hc. induction repos as [|R repos IH]; [reflexivity|].
      cbn [forallb] in Ha. apply andb_true_iff in Ha. destruct Ha as [HR Ha].
      apply atom_inv in HR. destruct HR as (_ & HRs & _).
      cbn [map comprehension].
      replace (_get_parent self ++ "/repositories/" ++ R)
        with ((_get_parent self ++ "/repositories") ++ "/" ++ R)
        by (now rewrite append_assoc).
      rewrite (item_last_suffix _ R HRs).
      replace ((_get_parent self ++ "/repositories") ++ "/" ++ R)
        with (_get_parent self ++ "/repositories/" ++ R)
        by (now rewrite append_assoc).
      rewrite (IH Ha). reflexivity. }
    rewrite E. reflexivity.
  - apply Forall_forall. intros R HR.
    apply (proj1 (forallb_forall _ _) Ha) in HR. apply atom_inv in HR.
    destruct HR as (HRn & HRs & HRc).
    assert (HRm : contains "sha256:" R = false)
      by (change "sha256:" with ("sha256" ++ String ":" "");
          now apply contains_last).
    rewrite init_run. eexists. split; [reflexivity|].
    destruct (shorthand_repository_fields env kw R HRn HRs HRm Ht Hv)
      as (B1 & B2 & B3 & B4).
    destruct (get_by_parent Resource client (locate env R kw)) as (G & _).
    rewrite (G B3), B1, B4. reflexivity.
Qed.

(** [X12] [get_tag()].  When the SDK knows the tag and the version it points
    to is named [<image>/versions/sha256:V], with [<image>] the name of the
    image as the object spells it and V not empty and free of [:], the
    method sends two requests: [get_tag] on [<image>/tags/<tag>], then
    [get_version] on the very version name the tag carries, and it ends as
    that second call ends.  When the SDK answers [None] for the tag, it
    sends the first request only and raises a ValueError that names the
    location, the repository and the image. *)
Theorem get_tag_follows_version (self : Self) (V : string) :
  let image_name :=
    _get_parent self ++ "/repositories/" ++ fmt (repository self)
      ++ "/packages/" ++ fmt (image self) in
  (client_get_tag client (image_name ++ "/tags/" ++ fmt (tag self))
   = inr (Some (image_name ++ "/versions/sha256:" ++ V)) ->
   (V =? "") = false -> contains ":" V = false ->
   Methods.get_tag Resource client self None None None
   = ([GetTag (image_name ++ "/tags/" ++ fmt (tag self));
       GetVersion (image_name ++ "/versions/sha256:" ++ V)],
      client_get_version client (image_name ++ "/versions/sha256:" ++ V)))
  /\ (client_get_tag client (image_name ++ "/tags/" ++ fmt (tag self))
      = inr None ->
      Methods.get_tag Resource client self None None None
      = ([GetTag (image_name ++ "/tags/" ++ fmt (tag self))],
         inl (Raised
                (ValueError
                   ("Tag not found in " ++ fmt (location self) ++ "/"
                      ++ fmt (repository self) ++ "/" ++ fmt (image self)
                      ++ "."))))).
Proof.
  intros image_name.
  unfold Methods.get_tag, Methods.get_version_from_tag, Methods.get_version,
    self_repository, self_image, self_tag, self_version, self_location, send.
  rewrite !or_none.
  replace (_get_parent self ++ "/repositories/" ++ fmt (repository self)
             ++ "/packages/" ++ fmt (image self) ++ "/tags/" ++ fmt (tag self))
    with (image_name ++ "/tags/" ++ fmt (tag self))
    by (subst image_name; now rewrite !append_assoc).
  split.
  - intros Hc HVn HVc. rewrite Hc. apply String.eqb_neq in HVn.
    cbn [call_bind call_ret List.app].
    replace (_get_parent self ++ "/repositories/" ++ fmt (repository self)
               ++ "/packages/" ++ fmt (image self) ++ "/versions/sha256:")
      with (image_name ++ "/versions/sha256:")
      by (subst image_name; now rewrite !append_assoc).
    replace (image_name ++ "/versions/sha256:" ++ V)
      with ((image_name ++ "/versions/sha256:") ++ V)
      by (now rewrite append_assoc).
    rewrite replace_prefix.
    + unfold or_. rewrite (truthy_nonempty V HVn). cbn [fmt].
      replace (_get_parent self ++ "/repositories/" ++ fmt (repository self)
                 ++ "/packages/" ++ fmt (image self) ++ "/versions/sha256:" ++ V)
        with ((image_name ++ "/versions/sha256:") ++ V)
        by (subst image_name; now rewrite !append_assoc).
      reflexivity.
    + destruct image_name; discriminate.
    + change "/versions/sha256:" with ("/versions/sha256" ++ String ":" "").
      rewrite <- append_assoc. now apply contains_last.
  - intros Hc. rewrite Hc. reflexivity.
Qed.

End Repositories.

(** ** Examples *)

Lemma ls_images_round_trip_witness :
  exists self,
    ArtifactRegistry env0 "r1" defaults = inr self
    /\ Methods.ls unit client1 self
       = ([ListPackages (_get_parent self ++ "/repositories/" ++ "r1")],
          inr (Some ["r1/img1"; "r1/a%2Fb"])).
Proof.
  destruct (ls_images_round_trip unit client1 env0 defaults "r1" ["img1"; "a%2Fb"]
              eq_refl eq_refl eq_refl eq_refl eq_refl eq_refl eq_refl)
    as (self & E & H).
  exists self. split; [exact E|]. exact (proj1 (H eq_refl)).
Defined.

Lemma ls_versions_latest_first_witness :
  exists ordered,
    Methods.ls_versions unit client1 fresh None None None true
    = ([ListVersions
          (_get_parent fresh ++ "/repositories/" ++ fmt (repository fresh)
             ++ "/packages/" ++ fmt (image fresh))],
       inr (map fst ordered))
    /\ Permutation ordered
         [("/repositories/None/packages/None/versions/sha256:aaa", 1%Z);
          ("/repositories/None/packages/None/versions/sha256:bbb", 2%Z)]
    /\ StronglySorted (fun a b => (snd b <= snd a)%Z) ordered.
Proof.
  exact (ls_versions_latest_first unit client1 fresh _ eq_refl).
Defined.

Lemma ls_versions_round_trip_witness :
  exists self,
    ArtifactRegistry env0 ("r1" ++ "/" ++ "img1") defaults = inr self
    /\ Methods.ls unit client1 self
       = ([ListVersions
             (_get_parent self ++ "/repositories/" ++ "r1" ++ "/packages/" ++ "img1")],
          inr (Some ["r1/img1/sha256:bbb"; "r1/img1/sha256:aaa"])).
Proof.
  destruct (ls_versions_round_trip unit client1 env0 defaults "r1" "img1"
              [("aaa", 1%Z); ("bbb", 2%Z)]
              eq_refl eq_refl eq_refl eq_refl eq_refl eq_refl eq_refl)
    as (self & E & H).
  exists self. split; [exact E|]. exact (proj1 (H eq_refl)).
Defined.

Lemma ls_repositories_round_trip_witness :
  exists self,
    ArtifactRegistry env0 "" defaults = inr self
    /\ Methods.ls unit client1 self
       = ([ListRepositories (_get_parent self)], inr (Some ["r1"; "r2"])).
Proof.
  destruct (ls_repositories_round_trip unit client1 env0 defaults ["r1"; "r2"]
              eq_refl eq_refl eq_refl eq_refl)
    as (self & E & H).
  exists self. split; [exact E|]. exact (proj1 (H eq_refl)).
Defined.

Lemma get_tag_follows_version_witness :
  Methods.get_tag unit client1
    (mkSelf (Some "proj") (Some "europe-west2") (Some "r1") (Some "img1")
       (Some "latest") None (Some "digest") "proj/europe-west2/r1/img1/latest")
    None None None
  = ([GetTag
        "projects/proj/locations/europe-west2/repositories/r1/packages/img1/tags/latest";
      GetVersion
        "projects/proj/locations/europe-west2/repositories/r1/packages/img1/versions/sha256:abc"],
     inr tt).
Proof.
  exact (proj1 (get_tag_follows_version unit client1
                  (mkSelf (Some "proj") (Some "europe-west2") (Some "r1")
                     (Some "img1") (Some "latest") None (Some "digest")
                     "proj/europe-west2/r1/img1/latest") "abc")
           eq_refl eq_refl eq_refl).
Defined.

(** ** The shortened path *)

(** [X13] For a readable locator (no tag; project, location, repository, and
    image and version where set, not empty and free of [/], [:] and [%2F])
    whose level is the level of its attributes, the shortened canonical path
    [_get_path()] is the values without their keys,
    [project/location/repository], followed by [/image] when there is an
    image and by [/sha256:version] when there is a version. *)
Theorem shortened_path_values (self : Self) :
  readable self = true ->
  level self = _get_level self ->
  _get_path true self
  = fmt (project self) ++ "/" ++ fmt (location self) ++ "/"
      ++ fmt (repository self)
      ++ match image self, version self with
         | Some i, Some v => "/" ++ i ++ "/sha256:" ++ v
         | Some i, None => "/" ++ i
         | _, _ => ""
         end.
Proof.
  destruct self as [[P|] [L|] [R|] im [t|] ver lv pa]; unfold readable; fields;
    try discriminate.
  intros Hr Hlv. unfold _get_level in Hlv.
  cbn [project location repository image tag version level path] in Hlv.
  change (truthy None) with false in Hlv. cbn [orb] in Hlv.
  apply andb_true_iff in Hr. destruct Hr as [Hr Hiv].
  apply andb_true_iff in Hr. destruct Hr as [Hr HR].
  apply andb_true_iff in Hr. destruct Hr as [HP HL].
  pose proof (plain_inv _ HP) as (_ & HPs & _).
  pose proof (plain_inv _ HL) as (_ & HLs & _).
  pose proof (plain_inv _ HR) as (HRn & HRs & _).
  unfold _get_path, level_is; fields. cbv zeta.
  destruct im as [I|], ver as [V|]; try discriminate; cbn [fmt].
  - apply andb_true_iff in Hiv. destruct Hiv as [HI HV].
    pose proof (plain_inv _ HI) as (_ & HIs & _).
    pose proof (plain_inv _ HV) as (HVn & HVs & _).
    rewrite (truthy_nonempty V HVn) in Hlv. subst lv.
    rewrite (truthy_nonempty V HVn).
    cbn [String.eqb Ascii.eqb Bool.eqb andb truthy].
    change ("projects/" ++ P ++ "/locations/" ++ L ++ "/repositories/" ++ R
              ++ "/packages/" ++ I ++ "/versions/sha256:" ++ V)
      with (join "/" ["projects"; P; "locations"; L; "repositories"; R;
                      "packages"; I; "versions"; "sha256:" ++ V]).
    rewrite split_join; [reflexivity | discriminate |].
    cbn [forallb]. rewrite HPs, HLs, HRs, HIs, (contains_marker_tail "/"), HVs.
    reflexivity.
  - pose proof (plain_inv _ Hiv) as (HIn & HIs & _).
    change (truthy None) with false in Hlv. cbv iota in Hlv.
    rewrite (truthy_nonempty I HIn) in Hlv. subst lv.
    cbn [String.eqb Ascii.eqb Bool.eqb andb].
    change ("projects/" ++ P ++ "/locations/" ++ L ++ "/repositories/" ++ R
              ++ "/packages/" ++ I)
      with (join "/" ["projects"; P; "locations"; L; "repositories"; R;
                      "packages"; I]).
    rewrite split_join; [reflexivity | discriminate |].
    cbn [forallb]. now rewrite HPs, HLs, HRs, HIs.
  - change (truthy None) with false in Hlv. cbv iota in Hlv.
    rewrite (truthy_nonempty R HRn) in Hlv. subst lv.
    cbn [String.eqb Ascii.eqb Bool.eqb andb].
    change ("projects/" ++ P ++ "/locations/" ++ L ++ "/repositories/" ++ R)
      with (join "/" ["projects"; P; "locations"; L; "repositories"; R]).
    rewrite split_join; [now rewrite append_empty_r | discriminate |].
    cbn [forallb]. now rewrite HPs, HLs, HRs.
Qed.

Lemma shortened_path_values_witness :
  _get_path true
    (mkSelf (Some "p1") (Some "us") (Some "r1") (Some "img1") None
       (Some "abc123") (Some "digest") "")
  = "p1/us/r1/img1/sha256:abc123".
Proof.
  exact (shortened_path_values
           (mkSelf (Some "p1") (Some "us") (Some "r1") (Some "img1") None
              (Some "abc123") (Some "digest") "") eq_refl eq_refl).
Defined.
